(** * koa-graphql-typescript: request parameters, operation pipeline, response

    A shallow embedding of the refactored middleware
    ([index.ts], [graphql-param.ts], [parse-body.ts], [parse-query.ts],
    [option.ts]) and the properties of its request/response contract.

    JavaScript text is modelled by [string]: a sequence of bytes, read as the
    UTF-8 encoding of the JavaScript string. *)

From Stdlib Require Import String Ascii List ZArith Bool Lia.
Import ListNotations.
Local Open Scope string_scope.
Local Open Scope Z_scope.
Local Set Warnings "-register-all".

(** ** JavaScript values *)

(** The values a request body, a JSON text or an execution result can hold.
    A number carries its literal: nothing here computes with numbers.
    An object is its own properties in insertion order. *)
Inductive JSValue : Type :=
| JSUndefined
| JSNull
| JSBool (b : bool)
| JSNumber (literal : string)
| JSString (s : string)
| JSArray (elements : list JSValue)
| JSObject (fields : list (string * JSValue))
| JSBuffer (bytes : string).

(** [typeof v] *)
Definition typeof (v : JSValue) : string :=
  match v with
  | JSUndefined => "undefined"
  | JSNull => "object"
  | JSBool _ => "boolean"
  | JSNumber _ => "number"
  | JSString _ => "string"
  | JSArray _ => "object"
  | JSObject _ => "object"
  | JSBuffer _ => "object"
  end.

(** [v instanceof Buffer] *)
Definition instanceof_Buffer (v : JSValue) : bool :=
  match v with JSBuffer _ => true | _ => false end.

Definition is_digit (c : ascii) : bool :=
  let n := nat_of_ascii c in (48 <=? n)%nat && (n <=? 57)%nat.

(** A number literal denotes zero when its mantissa has no digit but 0. *)
Fixpoint literal_is_zero (s : string) : bool :=
  match s with
  | EmptyString => true
  | String c rest =>
      if (Ascii.eqb c "e" || Ascii.eqb c "E")%bool then true
      else if (is_digit c && negb (Ascii.eqb c "0"))%bool then false
      else literal_is_zero rest
  end.

(** ToBoolean: what [if (v)], [!v] and [v && ...] test. *)
Definition truthy (v : JSValue) : bool :=
  match v with
  | JSUndefined | JSNull => false
  | JSBool b => b
  | JSNumber n => negb (literal_is_zero n)
  | JSString s => negb (s =? "")%string
  | JSArray _ | JSObject _ | JSBuffer _ => true
  end.

(** [a ?? b]: [b] only when [a] is null or undefined. *)
Definition nullish (a b : JSValue) : JSValue :=
  match a with
  | JSUndefined | JSNull => b
  | _ => a
  end.

Fixpoint assoc {A : Type} (k : string) (l : list (string * A)) : option A :=
  match l with
  | [] => None
  | (k', v) :: rest => if (k' =? k)%string then Some v else assoc k rest
  end.

(** [o.k] for the property names read here ([query], [variables],
    [operationName], [raw], [data]): an own property of an object, else
    [undefined]. *)
Definition js_get (o : JSValue) (k : string) : JSValue :=
  match o with
  | JSObject fields =>
      match assoc k fields with Some v => v | None => JSUndefined end
  | _ => JSUndefined
  end.

(** [o[k] = v]: an existing property keeps its place. *)
Fixpoint obj_set (fields : list (string * JSValue)) (k : string) (v : JSValue)
  : list (string * JSValue) :=
  match fields with
  | [] => [(k, v)]
  | (k', v') :: rest =>
      if (k' =? k)%string then (k', v) :: rest else (k', v') :: obj_set rest k v
  end.

(** ** Strings *)

Definition is_upper (c : ascii) : bool :=
  let n := nat_of_ascii c in (65 <=? n)%nat && (n <=? 90)%nat.

Definition is_lower (c : ascii) : bool :=
  let n := nat_of_ascii c in (97 <=? n)%nat && (n <=? 122)%nat.

Definition lower_ascii (c : ascii) : ascii :=
  if is_upper c then ascii_of_nat (nat_of_ascii c + 32) else c.

Definition upper_ascii (c : ascii) : ascii :=
  if is_lower c then ascii_of_nat (nat_of_ascii c - 32) else c.

Fixpoint map_string (f : ascii -> ascii) (s : string) : string :=
  match s with
  | EmptyString => EmptyString
  | String c rest => String (f c) (map_string f rest)
  end.

(** [s.toLowerCase()] and [s.toUpperCase()], on the ASCII letters. *)
Definition toLowerCase (s : string) : string := map_string lower_ascii s.
Definition toUpperCase (s : string) : string := map_string upper_ascii s.

(** [s] between double quotes, as the error messages show a name. *)
Definition quoted (s : string) : string := String "034" (s ++ String "034" "").

(** [s.startsWith(p)] *)
Definition startsWith (s p : string) : bool := String.prefix p s.

(** [s.split(sep)] for a separator of one character. *)
Fixpoint split_rec (sep : ascii) (s : string) (cur : string) : list string :=
  match s with
  | EmptyString => [cur]
  | String c rest =>
      if Ascii.eqb c sep then cur :: split_rec sep rest ""
      else split_rec sep rest (cur ++ String c "")
  end.

Definition split (sep : ascii) (s : string) : list string := split_rec sep s "".

(** ** JSON.parse

    The JSON grammar (ECMA-404) as a pushdown automaton that reads the text
    one character at a time: no fuel, and a result for every text. *)
Module JSON.

(** The containers that are open around the current position. *)
Inductive Frame : Type :=
| FArray (elements_rev : list JSValue)
| FObject (fields : list (string * JSValue)) (pending_key : option string).

(** What may come next between two tokens. *)
Inductive Expect : Type :=
| EValue          (* a value: at the start, after ':' and after ',' in an array *)
| EValueOrEnd     (* after '[' *)
| EKeyOrEnd       (* after '{' *)
| EKey            (* after ',' in an object *)
| EColon          (* after a key *)
| EAfter.         (* after a value: ',' or a closing bracket, or the end *)

Inductive StrState : Type :=
| SNormal
| SEscape
| SUnicode (digits : nat) (code : nat).

Inductive NumState : Type :=
| NMinus | NZero | NInt | NDot | NFrac | NExp | NExpSign | NExpDigits.

Inductive Mode : Type :=
| MIdle (e : Expect)
| MString (is_key : bool) (acc_rev : list ascii) (st : StrState)
| MNumber (st : NumState) (acc_rev : list ascii)
| MLiteral (rest : list ascii) (v : JSValue).

Record State : Type := mkState {
  mode : Mode;
  stack : list Frame;
  result : option JSValue
}.

Definition init : State := mkState (MIdle EValue) [] None.

Definition is_ws (c : ascii) : bool :=
  (Ascii.eqb c " " || Ascii.eqb c "009" || Ascii.eqb c "010" || Ascii.eqb c "013")%bool.

Definition string_of_rev (acc_rev : list ascii) : string :=
  string_of_list_ascii (rev acc_rev).

Definition hex_value (c : ascii) : option nat :=
  let n := nat_of_ascii c in
  if ((48 <=? n) && (n <=? 57))%nat%bool then Some (n - 48)%nat
  else if ((65 <=? n) && (n <=? 70))%nat%bool then Some (n - 55)%nat
  else if ((97 <=? n) && (n <=? 102))%nat%bool then Some (n - 87)%nat
  else None.

(** UTF-8 bytes of the code unit of a [\uXXXX] escape, last byte first. *)
Definition utf8_rev (n : nat) : list ascii :=
  if (n <? 128)%nat then [ascii_of_nat n]
  else if (n <? 2048)%nat then
    [ascii_of_nat (128 + n mod 64); ascii_of_nat (192 + n / 64)]
  else
    [ascii_of_nat (128 + n mod 64); ascii_of_nat (128 + (n / 64) mod 64);
     ascii_of_nat (224 + n / 4096)].

(** A value is complete: it is the result, or goes into the open container. *)
Definition complete (v : JSValue) (stk : list Frame) (res : option JSValue)
  : option State :=
  match stk with
  | [] => Some (mkState (MIdle EAfter) [] (Some v))
  | FArray es :: tl => Some (mkState (MIdle EAfter) (FArray (v :: es) :: tl) res)
  | FObject fs (Some k) :: tl =>
      Some (mkState (MIdle EAfter) (FObject (obj_set fs k v) None :: tl) res)
  | FObject _ None :: _ => None
  end.

Definition start_value (c : ascii) (stk : list Frame) (res : option JSValue)
  : option State :=
  if Ascii.eqb c "034" then Some (mkState (MString false [] SNormal) stk res)
  else if Ascii.eqb c "-" then Some (mkState (MNumber NMinus [c]) stk res)
  else if Ascii.eqb c "0" then Some (mkState (MNumber NZero [c]) stk res)
  else if is_digit c then Some (mkState (MNumber NInt [c]) stk res)
  else if Ascii.eqb c "t" then
    Some (mkState (MLiteral (list_ascii_of_string "rue") (JSBool true)) stk res)
  else if Ascii.eqb c "f" then
    Some (mkState (MLiteral (list_ascii_of_string "alse") (JSBool false)) stk res)
  else if Ascii.eqb c "n" then
    Some (mkState (MLiteral (list_ascii_of_string "ull") JSNull) stk res)
  else if Ascii.eqb c "[" then
    Some (mkState (MIdle EValueOrEnd) (FArray [] :: stk) res)
  else if Ascii.eqb c "{" then
    Some (mkState (MIdle EKeyOrEnd) (FObject [] None :: stk) res)
  else None.

Definition close_array (stk : list Frame) (res : option JSValue) : option State :=
  match stk with
  | FArray es :: tl => complete (JSArray (rev es)) tl res
  | _ => None
  end.

Definition close_object (stk : list Frame) (res : option JSValue) : option State :=
  match stk with
  | FObject fs None :: tl => complete (JSObject fs) tl res
  | _ => None
  end.

Definition step_idle (e : Expect) (c : ascii) (stk : list Frame)
    (res : option JSValue) : option State :=
  if is_ws c then Some (mkState (MIdle e) stk res)
  else match e with
  | EValue => start_value c stk res
  | EValueOrEnd =>
      if Ascii.eqb c "]" then close_array stk res else start_value c stk res
  | EKeyOrEnd =>
      if Ascii.eqb c "}" then close_object stk res
      else if Ascii.eqb c "034" then Some (mkState (MString true [] SNormal) stk res)
      else None
  | EKey =>
      if Ascii.eqb c "034" then Some (mkState (MString true [] SNormal) stk res)
      else None
  | EColon =>
      if Ascii.eqb c ":" then Some (mkState (MIdle EValue) stk res) else None
  | EAfter =>
      if Ascii.eqb c "," then
        match stk with
        | FArray _ :: _ => Some (mkState (MIdle EValue) stk res)
        | FObject _ None :: _ => Some (mkState (MIdle EKey) stk res)
        | _ => None
        end
      else if Ascii.eqb c "]" then close_array stk res
      else if Ascii.eqb c "}" then close_object stk res
      else None
  end.

Definition end_string (is_key : bool) (s : string) (stk : list Frame)
    (res : option JSValue) : option State :=
  if is_key then
    match stk with
    | FObject fs None :: tl =>
        Some (mkState (MIdle EColon) (FObject fs (Some s) :: tl) res)
    | _ => None
    end
  else complete (JSString s) stk res.

Definition unescape (c : ascii) : option ascii :=
  if (Ascii.eqb c "034" || Ascii.eqb c "\" || Ascii.eqb c "/")%bool then Some c
  else if Ascii.eqb c "b" then Some "008"%char
  else if Ascii.eqb c "f" then Some "012"%char
  else if Ascii.eqb c "n" then Some "010"%char
  else if Ascii.eqb c "r" then Some "013"%char
  else if Ascii.eqb c "t" then Some "009"%char
  else None.

Definition step_string (is_key : bool) (acc : list ascii) (st : StrState)
    (c : ascii) (stk : list Frame) (res : option JSValue) : option State :=
  match st with
  | SNormal =>
      if Ascii.eqb c "034" then end_string is_key (string_of_rev acc) stk res
      else if Ascii.eqb c "\" then Some (mkState (MString is_key acc SEscape) stk res)
      else if (nat_of_ascii c <? 32)%nat then None
      else Some (mkState (MString is_key (c :: acc) SNormal) stk res)
  | SEscape =>
      if Ascii.eqb c "u" then Some (mkState (MString is_key acc (SUnicode 0 0)) stk res)
      else match unescape c with
           | Some c' => Some (mkState (MString is_key (c' :: acc) SNormal) stk res)
           | None => None
           end
  | SUnicode digits code =>
      match hex_value c with
      | Some d =>
          let code' := (code * 16 + d)%nat in
          if (digits =? 3)%nat then
            Some (mkState (MString is_key (utf8_rev code' ++ acc) SNormal) stk res)
          else Some (mkState (MString is_key acc (SUnicode (S digits) code')) stk res)
      | None => None
      end
  end.

(** The number automaton: the next state on a character of the number. *)
Definition num_next (st : NumState) (c : ascii) : option NumState :=
  let e := (Ascii.eqb c "e" || Ascii.eqb c "E")%bool in
  let sign := (Ascii.eqb c "+" || Ascii.eqb c "-")%bool in
  match st with
  | NMinus => if Ascii.eqb c "0" then Some NZero
              else if is_digit c then Some NInt else None
  | NZero => if Ascii.eqb c "." then Some NDot
             else if e then Some NExp else None
  | NInt => if is_digit c then Some NInt
            else if Ascii.eqb c "." then Some NDot
            else if e then Some NExp else None
  | NDot => if is_digit c then Some NFrac else None
  | NFrac => if is_digit c then Some NFrac
             else if e then Some NExp else None
  | NExp => if is_digit c then Some NExpDigits
            else if sign then Some NExpSign else None
  | NExpSign => if is_digit c then Some NExpDigits else None
  | NExpDigits => if is_digit c then Some NExpDigits else None
  end.

Definition num_accepting (st : NumState) : bool :=
  match st with
  | NZero | NInt | NFrac | NExpDigits => true
  | NMinus | NDot | NExp | NExpSign => false
  end.

Definition end_number (st : NumState) (acc : list ascii) (stk : list Frame)
    (res : option JSValue) : option State :=
  if num_accepting st then complete (JSNumber (string_of_rev acc)) stk res
  else None.

Definition step (s : State) (c : ascii) : option State :=
  match mode s with
  | MIdle e => step_idle e c (stack s) (result s)
  | MString is_key acc st => step_string is_key acc st c (stack s) (result s)
  | MNumber st acc =>
      match num_next st c with
      | Some st' => Some (mkState (MNumber st' (c :: acc)) (stack s) (result s))
      | None =>
          match end_number st acc (stack s) (result s) with
          | Some s' => step_idle EAfter c (stack s') (result s')
          | None => None
          end
      end
  | MLiteral rest v =>
      match rest with
      | [] => None
      | c' :: rest' =>
          if Ascii.eqb c c' then
            match rest' with
            | [] => complete v (stack s) (result s)
            | _ => Some (mkState (MLiteral rest' v) (stack s) (result s))
            end
          else None
      end
  end.

(** The end of the text: exactly one value, and nothing left open. *)
Definition finish (s : State) : option JSValue :=
  let closed :=
    match mode s with
    | MNumber st acc => end_number st acc (stack s) (result s)
    | _ => Some s
    end in
  match closed with
  | Some (mkState (MIdle EAfter) [] (Some v)) => Some v
  | _ => None
  end.

Fixpoint run (s : State) (text : string) : option JSValue :=
  match text with
  | EmptyString => finish s
  | String c rest =>
      match step s c with
      | Some s' => run s' rest
      | None => None
      end
  end.

(** [JSON.parse(text)]: [None] when it throws a SyntaxError. *)
Definition parse (text : string) : option JSValue := run init text.

(** The outermost open container is an object. *)
Fixpoint bottom_object (stk : list Frame) : bool :=
  match stk with
  | [] => false
  | frame :: [] => match frame with FObject _ _ => true | FArray _ => false end
  | _ :: rest => bottom_object rest
  end.

(** The states of a text whose first token is an opening brace: inside that
    object, or after it with the object as the result. *)
Definition in_object (s : State) : Prop :=
  match stack s with
  | [] => mode s = MIdle EAfter /\ exists fields, result s = Some (JSObject fields)
  | _ :: _ => bottom_object (stack s) = true
  end.

End JSON.

(** ** URLSearchParams *)
Module URLSearchParams.

(** The pairs of the query string, in order. *)
Definition t : Type := list (string * string).

Definition plus_to_space (c : ascii) : ascii :=
  if Ascii.eqb c "+" then " "%char else c.

Definition hex2 (a b : ascii) : option ascii :=
  match JSON.hex_value a, JSON.hex_value b with
  | Some x, Some y => Some (ascii_of_nat (x * 16 + y))
  | _, _ => None
  end.

(** Percent-decoding: [%XY] is one byte, a stray [%] stays. *)
Fixpoint percent_decode (s : string) : string :=
  match s with
  | EmptyString => EmptyString
  | String c rest =>
      if Ascii.eqb c "%" then
        match rest with
        | String a (String b rest') =>
            match hex2 a b with
            | Some byte => String byte (percent_decode rest')
            | None => String c (percent_decode rest)
            end
        | _ => String c (percent_decode rest)
        end
      else String c (percent_decode rest)
  end.

Definition decode (s : string) : string :=
  percent_decode (map_string plus_to_space s).

(** Name and value of one [name=value] sequence: cut at the first [=]. *)
Fixpoint cut_at_equals (s : string) (name : string) : string * string :=
  match s with
  | EmptyString => (name, "")
  | String c rest =>
      if Ascii.eqb c "=" then (name, rest)
      else cut_at_equals rest (name ++ String c "")
  end.

Definition parse_pairs (sequences : list string) : t :=
  flat_map (fun seq =>
    if (seq =? "")%string then []
    else let '(n, v) := cut_at_equals seq "" in [(decode n, decode v)])
    sequences.

(** [new URLSearchParams(init)] for [init] a string or [undefined]. *)
Definition make (init : option string) : t :=
  match init with
  | None => []
  | Some s =>
      let s' := match s with
                | String c rest => if Ascii.eqb c "?" then rest else s
                | EmptyString => s
                end in
      parse_pairs (split "&" s')
  end.

(** [params.get(name)]: the first value of that name, else [null]. *)
Definition get (params : t) (name : string) : option string :=
  assoc name params.

End URLSearchParams.

(** What [urlData.get(name)] gives, as a value: the string, or [null]. *)
Definition js_of_option (o : option string) : JSValue :=
  match o with Some s => JSString s | None => JSNull end.

(** ** Errors *)

(** A thrown error: its [status] property when it has one, and its message. *)
Record JSError : Type := mkError {
  err_status : option Z;
  err_message : string
}.

(** [httpError(status, message)] *)
Definition httpError (status : Z) (message : string) : JSError :=
  mkError (Some status) message.

(** [new Error(message)], [new TypeError(message)] *)
Definition Error (message : string) : JSError := mkError None message.

(** How an evaluation ends: with a value, or with a thrown error. *)
Inductive Completion (A : Type) : Type :=
| Return (a : A)
| Throw (e : JSError).
Arguments Return {A} a.
Arguments Throw {A} e.

Definition bindC {A B : Type} (c : Completion A) (k : A -> Completion B)
  : Completion B :=
  match c with
  | Return a => k a
  | Throw e => Throw e
  end.

Declare Scope completion_scope.
Delimit Scope completion_scope with completion.
Notation "x <- c ;; k" := (bindC c (fun x => k))
  (at level 61, c at next level, right associativity) : completion_scope.

(** ** The platform: HTTP message, streams and the libraries around them *)

(** The result of [contentType.parse]. *)
Record ParsedMediaType : Type := mkMediaType {
  mt_type : string;
  mt_parameters : list (string * string)
}.

(** The options [readBody] gives to [getBody] (raw-body). *)
Record GetBodyOptions : Type := mkGetBodyOptions {
  gb_encoding : string;
  gb_length : option string;
  gb_limit : Z
}.

(** An error of raw-body or of the stream. *)
Record RawBodyError : Type := mkRawBodyError {
  raw_status : option Z;
  raw_type : option string;
  raw_message : string
}.

(** What the middleware uses and does not define: the request's byte stream,
    zlib, raw-body, content-type and querystring. *)
Class Platform : Type := {
  Stream : Type;
  createInflate : Stream -> Stream;
  createGunzip : Stream -> Stream;
  getBody : Stream -> GetBodyOptions -> RawBodyError + string;
  contentType_parse : string -> Completion ParsedMediaType;
  querystring_parse : string -> JSValue
}.

Section Middleware.
Context {P : Platform}.
Local Open Scope completion_scope.

(** *** parse-body.ts *)

(** [IncomingMessage]: header names are in lower case. *)
Record IncomingMessage : Type := mkRequest {
  url : option string;
  headers : list (string * string);
  stream : Stream
}.

Definition header (req : IncomingMessage) (name : string) : option string :=
  assoc name (headers req).

(** Return a decompressed stream, given an encoding. *)
Definition decompressed (req : IncomingMessage) (encoding : string)
  : Completion Stream :=
  if (encoding =? "identity")%string then Return (stream req)
  else if (encoding =? "deflate")%string then Return (createInflate (stream req))
  else if (encoding =? "gzip")%string then Return (createGunzip (stream req))
  else Throw (httpError 415
                ("Unsupported content-encoding " ++ quoted encoding ++ ".")).

(** [/^[ \t\n\r]*\{/u.test(s)] *)
Fixpoint jsonObjRegex_test (s : string) : bool :=
  match s with
  | EmptyString => false
  | String c rest =>
      if (Ascii.eqb c " " || Ascii.eqb c "009" || Ascii.eqb c "010"
          || Ascii.eqb c "013")%bool
      then jsonObjRegex_test rest
      else Ascii.eqb c "{"
  end.

(** The specification's wording of that test: the first character that is
    not a space, a tab, a line feed or a carriage return. *)
Fixpoint first_non_whitespace (s : string) : option ascii :=
  match s with
  | EmptyString => None
  | String c rest => if JSON.is_ws c then first_non_whitespace rest else Some c
  end.

(** [typeInfo.parameters.charset?.toLowerCase() ?? "utf-8"] *)
Definition charset_of (typeInfo : ParsedMediaType) : string :=
  match assoc "charset" (mt_parameters typeInfo) with
  | Some c => toLowerCase c
  | None => "utf-8"
  end.

(** [httpError(400, rawError)] for an error object: it keeps the status it
    has, and gets 400 when it has none. *)
Definition wrapped_status (rawError : RawBodyError) : Z :=
  match raw_status rawError with
  | Some s => if s =? 0 then 400 else s
  | None => 400
  end.

(** Read and parse a request body. *)
Definition readBody (req : IncomingMessage) (typeInfo : ParsedMediaType)
  : Completion string :=
  let charset := charset_of typeInfo in
  if negb (startsWith charset "utf-") then
    Throw (httpError 415 ("Unsupported charset " ++ quoted (toUpperCase charset) ++ "."))
  else
    let contentEncoding := header req "content-encoding" in
    let encoding := match contentEncoding with
                    | Some e => toLowerCase e
                    | None => "identity"
                    end in
    let length := if (encoding =? "identity")%string
                  then header req "content-length" else None in
    let limit := 100 * 1024 in
    stream <- decompressed req encoding ;;
    match getBody stream (mkGetBodyOptions charset length limit) with
    | inr text => Return text
    | inl rawError =>
        Throw (mkError (Some (wrapped_status rawError))
                 (match raw_type rawError with
                  | Some "encoding.unsupported" =>
                      "Unsupported charset " ++ quoted (toUpperCase charset) ++ "."
                  | _ => "Invalid body: " ++ raw_message rawError ++ "."
                  end))
    end.

(** Promise the body data contained in a request; [body] is the body an
    earlier middleware may have parsed already. *)
Definition parseBody (req : IncomingMessage) (body : JSValue)
  : Completion JSValue :=
  if ((typeof body =? "object")%string && negb (instanceof_Buffer body))%bool then
    Return (match body with JSNull => JSObject [] | _ => body end)
  else
    match header req "content-type" with
    | None => Return (JSObject [])
    | Some contentType =>
        typeInfo <- contentType_parse contentType ;;
        if ((typeof body =? "string")%string &&
            (mt_type typeInfo =? "application/graphql")%string)%bool then
          Return (JSObject [("query", body)])
        else if truthy body then Return (JSObject [])
        else
          rawBody <- readBody req typeInfo ;;
          if (mt_type typeInfo =? "application/graphql")%string then
            Return (JSObject [("query", JSString rawBody)])
          else if (mt_type typeInfo =? "application/json")%string then
            match (if jsonObjRegex_test rawBody then JSON.parse rawBody else None) with
            | Some parsed => Return parsed
            | None => Throw (httpError 400 "POST body sent invalid JSON.")
            end
          else if (mt_type typeInfo =? "application/x-www-form-urlencoded")%string then
            Return (querystring_parse rawBody)
          else Return (JSObject [])
    end.

(** *** graphql-param.ts *)

(** [query] and [operationName] are a string or [null]. [variables] is
    declared an object or [null]; it holds the value the code leaves there. *)
Record GraphQLParams : Type := mkParams {
  query : option string;
  variables : JSValue;
  operationName : option string;
  raw : bool
}.

(** [if (typeof v !== "string") v = null]: only a string has that type. *)
Definition string_or_null (v : JSValue) : option string :=
  match v with
  | JSString s => Some s
  | _ => None
  end.

(** [new URLSearchParams(request.url?.split("?")[1])] *)
Definition urlData (request : IncomingMessage) : URLSearchParams.t :=
  URLSearchParams.make
    (match url request with
     | Some u => nth_error (split "?" u) 1
     | None => None
     end).

Definition getGraphQLParams (request : IncomingMessage) (body : JSValue)
  : Completion GraphQLParams :=
  let urlData := urlData request in
  bodyData <- parseBody request body ;;
  (* GraphQL Query string. *)
  let query := nullish (js_of_option (URLSearchParams.get urlData "query"))
                       (js_get bodyData "query") in
  let query := string_or_null query in
  (* Parse the variables if needed. *)
  let variables := nullish (js_of_option (URLSearchParams.get urlData "variables"))
                           (js_get bodyData "variables") in
  variables <-
    match variables with
    | JSString text =>            (* typeof variables === "string" *)
        match JSON.parse text with
        | Some parsed => Return parsed
        | None => Throw (httpError 400 "Variables are invalid JSON.")
        end
    | _ =>
        if negb (typeof variables =? "object")%string then Return JSNull
        else Return variables
    end ;;
  (* Name of GraphQL operation to execute. *)
  let operationName :=
    nullish (js_of_option (URLSearchParams.get urlData "operationName"))
            (js_get bodyData "operationName") in
  let operationName := string_or_null operationName in
  let raw :=
    (match URLSearchParams.get urlData "raw" with Some _ => true | None => false end
     || match js_get bodyData "raw" with JSUndefined => false | _ => true end)%bool in
  Return (mkParams query variables operationName raw).


(** *** The GraphQL engine (graphql-js) *)

Inductive OperationTypeNode : Type := OpQuery | OpMutation | OpSubscription.

Definition operation_text (o : OperationTypeNode) : string :=
  match o with
  | OpQuery => "query"
  | OpMutation => "mutation"
  | OpSubscription => "subscription"
  end.

(** [ExecutionResult]: an absent field is [undefined]. *)
Record ExecutionResult : Type := mkResult {
  result_errors : option (list JSError);
  result_data : JSValue;
  result_extensions : JSValue
}.

(** Koa's context, as far as the middleware reads it. *)
Record Context : Type := mkContext {
  method : string;
  req : IncomingMessage;
  body : JSValue
}.

(** The engine is used through its interface only. [parse] stands for
    [parse(new Source(query, "GraphQL request"))], and [getOperationAST] gives
    the [operation] of the node it finds. *)
Class GraphQLEngine : Type := {
  GraphQLSchema : Type;
  DocumentNode : Type;
  ValidationRule : Type;
  RootValue : Type;
  FieldResolver : Type;
  specifiedRules : list ValidationRule;
  validateSchema : GraphQLSchema -> list JSError;
  parse : string -> JSError + DocumentNode;
  validate : GraphQLSchema -> DocumentNode -> list ValidationRule -> list JSError;
  getOperationAST : DocumentNode -> option string -> option OperationTypeNode;
  execute : GraphQLSchema -> DocumentNode -> option RootValue -> Context ->
            JSValue -> option string -> option FieldResolver ->
            Completion ExecutionResult;
  formatError : JSError -> JSValue
}.

Context {G : GraphQLEngine}.

(** *** The response, and evaluation that writes to it *)

Record FormattedExecutionResult : Type := mkFormatted {
  f_errors : option (list JSValue);
  f_data : JSValue;
  f_extensions : JSValue
}.

(** [response.body]: the result itself, or [JSON.stringify(result, null, 2)]. *)
Inductive Payload : Type :=
| PayloadObject (r : FormattedExecutionResult)
| PayloadStringified (indent : nat) (r : FormattedExecutionResult).

Record Response : Type := mkResponse {
  res_status : Z;
  res_headers : list (string * string);
  res_type : option string;
  res_body : option Payload
}.

(** An evaluation that reads and writes the response; what it wrote stays
    written when it throws. *)
Definition Eff (A : Type) : Type := Response -> Completion A * Response.

Definition ret {A : Type} (a : A) : Eff A := fun r => (Return a, r).

Definition throw {A : Type} (e : JSError) : Eff A := fun r => (Throw e, r).

Definition bindE {A B : Type} (c : Eff A) (k : A -> Eff B) : Eff B :=
  fun r =>
    match c r with
    | (Return a, r') => k a r'
    | (Throw e, r') => (Throw e, r')
    end.

(** [try { c } catch (error) { handler error }] *)
Definition try_catch {A : Type} (c : Eff A) (handler : JSError -> Eff A) : Eff A :=
  fun r =>
    match c r with
    | (Return a, r') => (Return a, r')
    | (Throw e, r') => handler e r'
    end.

(** [await c] for a computation that leaves the response alone. *)
Definition lift {A : Type} (c : Completion A) : Eff A := fun r => (c, r).

Definition with_status (s : Z) (r : Response) : Response :=
  mkResponse s (res_headers r) (res_type r) (res_body r).

Definition with_header (field value : string) (r : Response) : Response :=
  mkResponse (res_status r)
    ((field, value) :: filter (fun h => negb (fst h =? field)%string) (res_headers r))
    (res_type r) (res_body r).

(** [response.status = s] *)
Definition set_status (s : Z) : Eff unit := fun r => (Return tt, with_status s r).

Definition get_status : Eff Z := fun r => (Return (res_status r), r).

(** [response.set(field, value)] *)
Definition set_header (field value : string) : Eff unit :=
  fun r => (Return tt, with_header field value r).

(** [response.type = t] *)
Definition set_type (t : string) : Eff unit :=
  fun r => (Return tt, mkResponse (res_status r) (res_headers r) (Some t) (res_body r)).

(** [response.body = payload] *)
Definition set_body (payload : Payload) : Eff unit :=
  fun r => (Return tt,
            mkResponse (res_status r) (res_headers r) (res_type r) (Some payload)).

Declare Scope eff_scope.
Delimit Scope eff_scope with eff.
Notation "x <- c ;; k" := (bindE c (fun x => k))
  (at level 61, c at next level, right associativity) : eff_scope.
Notation "c ;; k" := (bindE c (fun _ => k))
  (at level 61, right associativity) : eff_scope.

(** *** option.ts *)

Record RequestInfo : Type := mkRequestInfo {
  ri_document : option DocumentNode;
  ri_variables : JSValue;
  ri_operationName : option string;
  ri_result : ExecutionResult;
  ri_context : Context
}.

(** The caller's functions are taken as functions of their arguments:
    [formatErrorFn] gives a value for every error, and [extensionsFn], which
    may throw, does not write to the result or to the context it is given.
    A formatter that throws and an extensions function that changes the
    result in place are not covered. *)
Record OptionsData : Type := mkOptionsData {
  schema : option GraphQLSchema;
  rootValue : option RootValue;
  pretty : bool;
  formatErrorFn : option (JSError -> Context -> JSValue);
  validationRules : option (list ValidationRule);
  extensionsFn : option (RequestInfo -> Completion JSValue);
  fieldResolver : option FieldResolver
}.

(** What the options resolve to: an options object, something that is not
    one ([None]), or a rejection. An options function reads the context and
    the response; one that writes to the response is not covered. *)
Definition OptionsResult : Type := Completion (option OptionsData).

Inductive Options : Type :=
| OptionsFunction (f : Context -> Response -> OptionsResult)
| OptionsValue (r : OptionsResult).

Definition parseOptions (opts : Options) (ctx : Context) : Eff OptionsData :=
  (optionsData <- (fun response =>
                     (match opts with
                      | OptionsFunction f => f ctx response
                      | OptionsValue r => r
                      end, response)) ;;
   match optionsData with
   | Some d => ret d
   | None =>
       throw (Error ("GraphQL middleware option function must return an options object " ++
                     "or a promise which will be resolved to an options object."))
   end)%eff.

(** *** parse-query.ts *)

Record Result : Type := mkQueryResult {
  result : ExecutionResult;
  document : option DocumentNode
}.

Definition errors_only (es : list JSError) : Result :=
  mkQueryResult (mkResult (Some es) JSUndefined JSUndefined) None.

Definition parseQuery (data : OptionsData) (params : GraphQLParams) (ctx : Context)
  : Eff Result :=
  let validationRules :=
    match validationRules data with Some rules => rules | None => [] end in
  (* If there is no query, return a 400: Bad Request. *)
  match query params with
  | None => throw (httpError 400 "Must provide query string.")
  | Some query =>
      if (query =? "")%string then   (* the empty string is falsy too *)
        throw (httpError 400 "Must provide query string.")
      else
      match schema data with
      | None => throw (Error "Expected undefined to be a GraphQL schema.")
      | Some schema =>
          (* Validate Schema *)
          let schemaValidationErrors := validateSchema schema in
          if (0 <? length schemaValidationErrors)%nat then
            (* Return 500: Internal Server Error if invalid schema. *)
            (set_status 500 ;; ret (errors_only schemaValidationErrors))%eff
          else
            (* Parse source to AST, reporting any syntax error. *)
            match parse query with
            | inl syntaxError =>
                (set_status 400 ;; ret (errors_only [syntaxError]))%eff
            | inr document =>
                let rules := (specifiedRules ++ validationRules)%list in
                (* Validate AST, reporting any errors. *)
                let validationErrors := validate schema document rules in
                if (0 <? length validationErrors)%nat then
                  (set_status 400 ;; ret (errors_only validationErrors))%eff
                else
                  (* Only query operations are allowed on GET requests. *)
                  let non_query :=
                    if (method ctx =? "GET")%string then
                      match getOperationAST document (operationName params) with
                      | Some OpQuery | None => None
                      | Some operation => Some operation
                      end
                    else None in
                  match non_query with
                  | Some operation =>
                      (set_header "Allow" "POST" ;;
                       throw (httpError 405
                                ("Can only perform a " ++ operation_text operation ++
                                 " operation from a POST request.")))%eff
                  | None =>
                      (* Perform the execution, reporting any errors creating
                         the context. *)
                      match execute schema document (rootValue data) ctx
                              (variables params) (operationName params)
                              (fieldResolver data) with
                      | Return result =>
                          (set_status 200 ;;
                           ret (mkQueryResult result (Some document)))%eff
                      | Throw contextError =>
                          (set_status 400 ;; ret (errors_only [contextError]))%eff
                      end
                  end
            end
      end
  end.

(** *** index.ts *)

(** [error.status || 500] *)
Definition status_or_500 (error : JSError) : Z :=
  match err_status error with
  | Some s => if s =? 0 then 500 else s
  | None => 500
  end.

(** The [try] block of the middleware: parameters, query, extensions. *)
Definition graphqlHTTP_try (data : OptionsData) (ctx : Context) : Eff ExecutionResult :=
  (* Parse the Request to get GraphQL request parameters. *)
  (params <- lift (getGraphQLParams (req ctx) (body ctx)) ;;
   query <- parseQuery data params ctx ;;
   let result := result query in
   (* Collect and apply any metadata extensions if a function was provided. *)
   match extensionsFn data with
   | Some extensionsFn =>
       extensions <- lift (extensionsFn
                             (mkRequestInfo (document query) (variables params)
                                (operationName params) result ctx)) ;;
       if (truthy extensions && (typeof extensions =? "object")%string)%bool then
         ret (mkResult (result_errors result) (result_data result) extensions)
       else ret result
   | None => ret result
   end)%eff.

(** The [try] statement with its [catch]: the outcome and its status. *)
Definition graphqlHTTP_outcome (data : OptionsData) (ctx : Context)
  : Eff ExecutionResult :=
  try_catch (graphqlHTTP_try data ctx)
    (fun error =>
       (* If an error was caught, report the httpError status, or 500. *)
       (set_status (status_or_500 error) ;;
        ret (mkResult (Some [error]) JSUndefined JSUndefined))%eff).

(** Format any encountered errors. *)
Definition format_result (data : OptionsData) (ctx : Context)
    (result : ExecutionResult) : FormattedExecutionResult :=
  mkFormatted
    (match result_errors result with
     | Some errs =>
         Some (map (fun err =>
                      match formatErrorFn data with
                      | Some formatErrorFn => formatErrorFn err ctx
                      | None => formatError err
                      end) errs)
     | None => None
     end)
    (result_data result) (result_extensions result).

(** What follows the [try] statement: the status of a result without data,
    the errors' format, the payload. With formatters that give a value for
    every error, and results that [JSON.stringify] can write, nothing here
    throws. *)
Definition graphqlHTTP_respond (data : OptionsData) (ctx : Context)
    (result : ExecutionResult) : Eff unit :=
  (status <- get_status ;;
   (* If no data was included in the result, that indicates a runtime
      query error, indicate as such with a generic status code. *)
   (if ((status =? 200) && negb (truthy (result_data result)))%bool
    then set_status 500 else ret tt) ;;
   let result := format_result data ctx result in
   (* Otherwise, present JSON directly. *)
   let payload := if pretty data then PayloadStringified 2 result
                  else PayloadObject result in
   set_type "application/json" ;;
   set_body payload)%eff.

(** The middleware that [graphqlHTTP(options)] returns. *)
Definition graphqlHTTP_middleware (options : Options) (ctx : Context)
    (next : Eff unit) : Eff unit :=
  (* GraphQL HTTP only supports GET and POST methods. *)
  if (negb (method ctx =? "GET")%string && negb (method ctx =? "POST")%string)%bool then
    (set_header "Allow" "GET, POST" ;;
     throw (httpError 405 "GraphQL only supports GET and POST requests."))%eff
  else
    (data <- parseOptions options ctx ;;
     (* Assert that schema is required. *)
     match schema data with
     | None => throw (Error "GraphQL middleware options must contain a schema.")
     | Some _ =>
         result <- graphqlHTTP_outcome data ctx ;;
         graphqlHTTP_respond data ctx result ;;
         next
     end)%eff.

Definition graphqlHTTP (options : option Options)
  : Completion (Context -> Eff unit -> Eff unit) :=
  match options with
  | None => Throw (Error "GraphQL middleware requires options.")
  | Some options => Return (graphqlHTTP_middleware options)
  end.

End Middleware.

(** ** The earlier variant of the body parser (parseBody.ts)

    It reads the body off the request, and differs from [parseBody] in two
    places: a keyed object is returned as it is, [null] included, and the
    test before the stream is read is [body !== null]. [readBody] is the
    same function in both files. *)
Module Legacy.
Section ParseBody.
Context {P : Platform}.
Local Open Scope completion_scope.

Definition parseBody (req : IncomingMessage) (body : JSValue)
  : Completion JSValue :=
  (* If express has already parsed a body as a keyed object, use it. *)
  if ((typeof body =? "object")%string && negb (instanceof_Buffer body))%bool then
    Return body
  else
    (* Skip requests without content types. *)
    match header req "content-type" with
    | None => Return (JSObject [])
    | Some contentType =>
        typeInfo <- contentType_parse contentType ;;
        if ((typeof body =? "string")%string &&
            (mt_type typeInfo =? "application/graphql")%string)%bool then
          Return (JSObject [("query", body)])
        else
          (* Already parsed body we didn't recognise? Parse nothing. *)
          match body with
          | JSNull =>
              rawBody <- readBody req typeInfo ;;
              if (mt_type typeInfo =? "application/graphql")%string then
                Return (JSObject [("query", JSString rawBody)])
              else if (mt_type typeInfo =? "application/json")%string then
                match (if jsonObjRegex_test rawBody then JSON.parse rawBody
                       else None) with
                | Some parsed => Return parsed
                | None => Throw (httpError 400 "POST body sent invalid JSON.")
                end
              else if (mt_type typeInfo =? "application/x-www-form-urlencoded")%string
              then Return (querystring_parse rawBody)
              else Return (JSObject [])
          | _ => Return (JSObject [])       (* body !== null *)
          end
    end.

End ParseBody.
End Legacy.

(** ** A small platform and engine, to run the middleware on examples *)
Module Example.

Fixpoint trim_left (s : string) : string :=
  match s with
  | String " " rest => trim_left rest
  | _ => s
  end.

(** Enough of [content-type]: the type in lower case, then [name=value]
    parameters separated by [;]. *)
Definition media_type (header : string) : Completion ParsedMediaType :=
  match split ";" header with
  | [] | "" :: _ => Throw (Error "invalid media type")
  | t :: params =>
      Return (mkMediaType (toLowerCase (trim_left t))
                (map (fun p => let '(n, v) := URLSearchParams.cut_at_equals (trim_left p) ""
                               in (toLowerCase n, v)) params))
  end.

(** The stream is the body text as sent; only the identity encoding and the
    UTF-8 charset are there. *)
Definition read_text (stream : string) (options : GetBodyOptions)
  : RawBodyError + string :=
  if negb (gb_encoding options =? "utf-8")%string then
    inl (mkRawBodyError (Some 415) (Some "encoding.unsupported")
           "specified encoding unsupported")
  else if gb_limit options <? Z.of_nat (String.length stream) then
    inl (mkRawBodyError (Some 413) (Some "entity.too.large")
           "request entity too large")
  else inr stream.

Definition form_fields (text : string) : JSValue :=
  JSObject (map (fun '(n, v) => (n, JSString v))
              (URLSearchParams.parse_pairs (split "&" text))).

#[export] Instance platform : Platform := {|
  Stream := string;
  createInflate := fun s => s;
  createGunzip := fun s => s;
  getBody := read_text;
  contentType_parse := media_type;
  querystring_parse := form_fields
|}.

Inductive Schema : Type := GoodSchema | BrokenSchema.

(** One operation of a document: its name, its kind and its only field. *)
Record Operation : Type := mkOperation {
  op_name : option string;
  op_kind : OperationTypeNode;
  op_field : string
}.

Definition read_document (source : string) : JSError + list Operation :=
  if (source =? "{ hello }")%string then inr [mkOperation None OpQuery "hello"]
  else if (source =? "{ broken }")%string then inr [mkOperation None OpQuery "broken"]
  else if (source =? "mutation Inc { inc }")%string then
    inr [mkOperation (Some "Inc") OpMutation "inc"]
  else inl (Error "Syntax Error").

Definition find_operation (doc : list Operation) (name : option string)
  : option Operation :=
  match name with
  | None => match doc with [op] => Some op | _ => None end
  | Some n =>
      find (fun op => match op_name op with
                      | Some m => (m =? n)%string
                      | None => false
                      end) doc
  end.

Definition run_operation (doc : list Operation) (name : option string)
  : Completion ExecutionResult :=
  match find_operation doc name with
  | None => Return (mkResult (Some [Error "Must provide an operation."])
                      JSUndefined JSUndefined)
  | Some op =>
      if (op_field op =? "hello")%string then
        Return (mkResult None (JSObject [("hello", JSString "world")]) JSUndefined)
      else if (op_field op =? "inc")%string then
        Return (mkResult None (JSObject [("inc", JSNumber "1")]) JSUndefined)
      else
        Return (mkResult (Some [Error "Cannot return null for non-nullable field."])
                  JSNull JSUndefined)
  end.

#[export] Instance engine : GraphQLEngine := {|
  GraphQLSchema := Schema;
  DocumentNode := list Operation;
  ValidationRule := unit;
  RootValue := unit;
  FieldResolver := unit;
  specifiedRules := [];
  validateSchema := fun s =>
    match s with
    | GoodSchema => []
    | BrokenSchema => [Error "Query root type must be provided."]
    end;
  parse := read_document;
  validate := fun _ _ _ => [];
  getOperationAST := fun doc name => option_map op_kind (find_operation doc name);
  execute := fun _ doc _ _ _ name _ => run_operation doc name;
  formatError := fun e => JSObject [("message", JSString (err_message e))]
|}.

Definition options_for (s : Schema) : OptionsData :=
  mkOptionsData (Some s) None false None None None None.

Definition request (url : string) (headers : list (string * string)) (text : string)
  : IncomingMessage := mkRequest (Some url) headers text.

Definition options_value (s : Schema) : Options :=
  OptionsValue (Return (Some (options_for s))).

(** The response before the middleware writes to it (Koa starts at 404). *)
Definition fresh : Response := mkResponse 404 [] None None.

(** [GET /graphql?query={ hello }] *)
Definition get_hello : Context :=
  mkContext "GET" (request "/graphql?query=%7B%20hello%20%7D" [] "") JSUndefined.

(** [GET /graphql], no query at all *)
Definition get_nothing : Context :=
  mkContext "GET" (request "/graphql" [] "") JSUndefined.

(** [GET /graphql?query=mutation Inc { inc }&operationName=Inc] *)
Definition get_mutation : Context :=
  mkContext "GET"
    (request "/graphql?query=mutation+Inc+%7B+inc+%7D&operationName=Inc" [] "")
    JSUndefined.

Definition json : list (string * string) := [("content-type", "application/json")].

(** A JSON text written with ['] for each double quote. *)
Definition text (s : string) : string :=
  map_string (fun c => if Ascii.eqb c "'" then "034"%char else c) s.

(** A query whose only field fails: the engine answers with [data: null]. *)
Definition post_broken : Context :=
  mkContext "POST" (request "/graphql" json (text "{'query':'{ broken }'}")) JSUndefined.

(** The query string and the body both have the three keys;
    [operationName] is empty in the query string. *)
Definition both : IncomingMessage :=
  request "/graphql?query=%7B%20hello%20%7D&variables=%7B%22a%22%3A1%7D&operationName="
    json
    (text "{'query':'mutation Inc { inc }','variables':{'b':2},'operationName':'Inc'}").

(** A form body whose variables are the text [not json]. *)
Definition form_not_json : IncomingMessage :=
  request "/graphql" [("content-type", "application/x-www-form-urlencoded")]
    "query=%7B+hello+%7D&variables=not+json".

(** [?variables=] with variables in the body. *)
Definition empty_variables : IncomingMessage :=
  request "/graphql?variables=" json
    (text "{'query':'{ hello }','variables':{'a':1}}").

Definition json_array : IncomingMessage := request "/graphql" json "  [1, 2]".

Definition json_cut : IncomingMessage := request "/graphql" json (text " {'query': ").

Definition json_hello : IncomingMessage :=
  request "/graphql" json (text "{'query':'{ hello }'}").

End Example.

(** ** More requests and options for the examples *)
Module Samples.
Import Example.

(** A body compressed with an encoding that is not known. *)
Definition brotli : IncomingMessage :=
  request "/graphql" [("content-type", "application/json"); ("content-encoding", "br")]
    "{}".

Definition gzip_short : IncomingMessage :=
  request "/graphql" [("content-encoding", "GZIP"); ("content-length", "3")] "{}".

Definition gzip_long : IncomingMessage :=
  request "/graphql" [("content-length", "999"); ("content-encoding", "GZIP")] "{}".

Definition utf16 : ParsedMediaType :=
  mkMediaType "application/json" [("charset", "UTF-16")].

Definition plain_latin1 : IncomingMessage :=
  request "/graphql?query=%7B%20hello%20%7D"
    [("content-type", "text/plain; charset=latin1")] "hello".

Definition plain_utf8 : IncomingMessage :=
  request "/graphql" [("content-type", "text/plain")] "hello".

Definition graphql_hello : IncomingMessage :=
  request "/graphql?operationName=Q" [("content-type", "application/graphql")]
    "{ hello }".

Definition no_headers : IncomingMessage := request "/graphql" [] "ignored".

Definition hello_and_more : JSValue :=
  JSObject [("query", JSString "{ hello }"); ("debug", JSBool true)].

Definition hello_only : JSValue := JSObject [("query", JSString "{ hello }")].

Definition stamp (info : RequestInfo) : Completion JSValue :=
  Return (JSObject [("took", JSNumber "1")]).

Definition failing (info : RequestInfo) : Completion JSValue :=
  Throw (Error "no extensions").

Definition options_with (s : Schema) (hook : RequestInfo -> Completion JSValue)
  : OptionsData :=
  mkOptionsData (Some s) None false None None (Some hook) None.

(** [PUT /graphql] *)
Definition put : Context := mkContext "PUT" (request "/graphql" [] "") JSUndefined.

(** A POST whose JSON body is cut short. *)
Definition post_cut : Context := mkContext "POST" json_cut JSUndefined.

End Samples.

(** * Properties *)

(** ** JSON texts that open with a brace *)

Section JSONObjects.
Import JSON.

Lemma in_object_open (s : State) : bottom_object (stack s) = true -> in_object s.
Proof.
  unfold in_object. destruct (stack s); [discriminate | trivial].
Qed.

Lemma bottom_object_push (f : Frame) (stk : list Frame) :
  bottom_object stk = true -> bottom_object (f :: stk) = true.
Proof. destruct stk; [discriminate | trivial]. Qed.

Lemma complete_open (v : JSValue) (stk : list Frame) (res : option JSValue)
    (s' : State) :
  bottom_object stk = true ->
  complete v stk res = Some s' ->
  bottom_object (stack s') = true.
Proof.
  intros Hbottom Hcomplete.
  destruct stk as [| [es | fs [k |]] tl]; cbn in Hcomplete; try discriminate;
    injection Hcomplete as <-; cbn [stack]; destruct tl; exact Hbottom.
Qed.

Lemma close_object_in_object (stk : list Frame) (res : option JSValue) (s' : State) :
  bottom_object stk = true ->
  close_object stk res = Some s' ->
  in_object s'.
Proof.
  intros Hbottom Hclose.
  destruct stk as [| [es | fs [k |]] tl]; cbn in Hclose; try discriminate.
  destruct tl as [| f tl].
  - cbn in Hclose. injection Hclose as <-. unfold in_object. cbn.
    split; [reflexivity | eexists; reflexivity].
  - apply in_object_open. exact (complete_open _ (f :: tl) _ _ Hbottom Hclose).
Qed.

Lemma close_array_in_object (stk : list Frame) (res : option JSValue) (s' : State) :
  bottom_object stk = true ->
  close_array stk res = Some s' ->
  in_object s'.
Proof.
  intros Hbottom Hclose.
  destruct stk as [| [es | fs k] tl]; cbn in Hclose; try discriminate.
  destruct tl as [| f tl]; [discriminate |].
  apply in_object_open. exact (complete_open _ (f :: tl) _ _ Hbottom Hclose).
Qed.

Lemma start_value_open (c : ascii) (stk : list Frame) (res : option JSValue)
    (s' : State) :
  bottom_object stk = true ->
  start_value c stk res = Some s' ->
  bottom_object (stack s') = true.
Proof.
  intros Hbottom Hstart. unfold start_value in Hstart.
  repeat match type of Hstart with
         | (if ?b then _ else _) = _ => destruct b
         end;
    try discriminate; injection Hstart as <-; cbn [stack];
    auto using bottom_object_push.
Qed.

Lemma step_idle_in_object (e : Expect) (c : ascii) (stk : list Frame)
    (res : option JSValue) (s' : State) :
  bottom_object stk = true ->
  step_idle e c stk res = Some s' ->
  in_object s'.
Proof.
  intros Hbottom Hstep. unfold step_idle in Hstep.
  destruct (is_ws c); [injection Hstep as <-; apply in_object_open; exact Hbottom |].
  destruct e;
    repeat match type of Hstep with
           | (if ?b then _ else _) = _ => destruct b
           end;
    try discriminate;
    eauto using in_object_open, start_value_open, close_array_in_object,
      close_object_in_object;
    try (injection Hstep as <-; apply in_object_open; exact Hbottom).
  destruct stk as [| [es | fs [k |]] tl]; try discriminate;
    injection Hstep as <-; apply in_object_open; exact Hbottom.
Qed.

Lemma end_string_open (is_key : bool) (text : string) (stk : list Frame)
    (res : option JSValue) (s' : State) :
  bottom_object stk = true ->
  end_string is_key text stk res = Some s' ->
  bottom_object (stack s') = true.
Proof.
  intros Hbottom Hend. unfold end_string in Hend.
  destruct is_key; [| exact (complete_open _ _ _ _ Hbottom Hend)].
  destruct stk as [| [es | fs [k |]] tl]; try discriminate.
  injection Hend as <-. cbn [stack]. destruct tl; exact Hbottom.
Qed.

Lemma step_string_open (is_key : bool) (acc : list ascii) (st : StrState)
    (c : ascii) (stk : list Frame) (res : option JSValue) (s' : State) :
  bottom_object stk = true ->
  step_string is_key acc st c stk res = Some s' ->
  bottom_object (stack s') = true.
Proof.
  intros Hbottom Hstep. unfold step_string in Hstep.
  destruct st;
    repeat match type of Hstep with
           | (if ?b then _ else _) = _ => destruct b
           | match ?x with Some _ => _ | None => _ end = _ => destruct x
           end;
    try discriminate;
    eauto using end_string_open;
    injection Hstep as <-; exact Hbottom.
Qed.

Lemma step_idle_done (c : ascii) (res : option JSValue) (s' : State) :
  step_idle EAfter c [] res = Some s' -> s' = mkState (MIdle EAfter) [] res.
Proof.
  unfold step_idle.
  destruct (is_ws c); [intros H; injection H as <-; reflexivity |].
  repeat match goal with
         | |- (if ?b then _ else _) = _ -> _ => destruct b
         end; discriminate.
Qed.

Lemma step_in_object (s : State) (c : ascii) (s' : State) :
  in_object s -> step s c = Some s' -> in_object s'.
Proof.
  intros Hs Hstep. unfold step in Hstep. unfold in_object in Hs.
  destruct s as [m stk res]. cbn [mode stack result] in *.
  destruct stk as [| f tl].
  - destruct Hs as [-> Hres].
    apply step_idle_done in Hstep. subst s'. unfold in_object. cbn. auto.
  - destruct m as [e | is_key acc st | st acc | rest v].
    + exact (step_idle_in_object e c _ res s' Hs Hstep).
    + apply in_object_open. exact (step_string_open _ _ _ _ _ _ _ Hs Hstep).
    + destruct (num_next st c).
      * injection Hstep as <-. apply in_object_open. exact Hs.
      * unfold end_number in Hstep.
        destruct (num_accepting st); [| discriminate].
        destruct (complete _ _ _) as [s'' |] eqn:Hcomplete; [| discriminate].
        apply (step_idle_in_object EAfter c (stack s'') (result s'') s');
          [| exact Hstep].
        exact (complete_open _ _ _ _ Hs Hcomplete).
    + destruct rest as [| c' rest']; [discriminate |].
      destruct (Ascii.eqb c c'); [| discriminate].
      destruct rest'.
      * apply in_object_open. exact (complete_open _ _ _ _ Hs Hstep).
      * injection Hstep as <-. apply in_object_open. exact Hs.
Qed.

Lemma finish_in_object (s : State) (v : JSValue) :
  in_object s -> finish s = Some v -> exists fields, v = JSObject fields.
Proof.
  intros Hs Hfinish. unfold finish in Hfinish. unfold in_object in Hs.
  destruct s as [m stk res]. cbn [mode stack result] in *.
  destruct stk as [| f tl].
  - destruct Hs as [-> [fields ->]]. injection Hfinish as <-. eauto.
  - exfalso.
    destruct m as [[] | is_key acc st | st acc | rest v'];
      cbn [mode] in Hfinish; try discriminate.
    unfold end_number in Hfinish.
    destruct (num_accepting st); [| discriminate].
    destruct (complete _ _ _) as [[m' stk' res'] |] eqn:Hcomplete; [| discriminate].
    apply (complete_open _ _ _ _ Hs) in Hcomplete. cbn [stack] in Hcomplete.
    destruct stk'; [discriminate |].
    destruct m' as [[] | | |]; discriminate.
Qed.

Lemma run_in_object (text : string) (s : State) (v : JSValue) :
  in_object s -> run s text = Some v -> exists fields, v = JSObject fields.
Proof.
  revert s. induction text as [| c rest IH]; intros s Hs Hrun; cbn in Hrun.
  - exact (finish_in_object s v Hs Hrun).
  - destruct (step s c) as [s' |] eqn:Hstep; [| discriminate].
    exact (IH s' (step_in_object s c s' Hs Hstep) Hrun).
Qed.

End JSONObjects.

Section BodyAndParameters.
Context {P : Platform}.

(** ** The body interpreter *)

(** A JSON text that the body interpreter accepts is an object. *)
Lemma accepted_json_is_object (text : string) (v : JSValue) :
  jsonObjRegex_test text = true ->
  JSON.parse text = Some v ->
  exists fields, v = JSObject fields.
Proof.
  unfold JSON.parse.
  induction text as [| c rest IH]; cbn [jsonObjRegex_test JSON.run]; [discriminate |].
  intros Hregex Hrun.
  unfold JSON.step in Hrun. cbn [JSON.mode JSON.init JSON.stack JSON.result] in Hrun.
  unfold JSON.step_idle, JSON.is_ws in Hrun.
  destruct (Ascii.eqb c " " || Ascii.eqb c "009" || Ascii.eqb c "010"
            || Ascii.eqb c "013")%bool.
  - exact (IH Hregex Hrun).
  - apply Ascii.eqb_eq in Hregex. subst c. cbn in Hrun.
    refine (run_in_object rest _ v _ Hrun). reflexivity.
Qed.
Lemma jsonObjRegex_first_non_whitespace (s : string) :
  jsonObjRegex_test s = true <-> first_non_whitespace s = Some "{"%char.
Proof.
  induction s as [| c rest IH]; simpl.
  - split; discriminate.
  - unfold JSON.is_ws.
    destruct (Ascii.eqb c " " || Ascii.eqb c "009" || Ascii.eqb c "010"
              || Ascii.eqb c "013")%bool.
    + exact IH.
    + rewrite Ascii.eqb_eq. split.
      * intros ->. reflexivity.
      * intros H. injection H as ->. reflexivity.
Qed.

(** What [parseBody] does once nothing was parsed before it and the content
    type is there: it reads the body and chooses by the media type. *)
Lemma parseBody_unparsed (req : IncomingMessage) (body : JSValue)
    (contentType : string) (typeInfo : ParsedMediaType) (rawBody : string) :
  typeof body <> "object" ->
  truthy body = false ->
  header req "content-type" = Some contentType ->
  contentType_parse contentType = Return typeInfo ->
  readBody req typeInfo = Return rawBody ->
  parseBody req body =
    if (mt_type typeInfo =? "application/graphql")%string then
      match body with
      | JSString _ => Return (JSObject [("query", body)])
      | _ => Return (JSObject [("query", JSString rawBody)])
      end
    else if (mt_type typeInfo =? "application/json")%string then
      match (if jsonObjRegex_test rawBody then JSON.parse rawBody else None) with
      | Some parsed => Return parsed
      | None => Throw (httpError 400 "POST body sent invalid JSON.")
      end
    else if (mt_type typeInfo =? "application/x-www-form-urlencoded")%string then
      Return (querystring_parse rawBody)
    else Return (JSObject []).
Proof.
  intros Hobj Hfalsy Hheader Hparse Hread.
  unfold parseBody.
  apply String.eqb_neq in Hobj. rewrite Hobj. simpl.
  rewrite Hheader, Hparse. simpl.
  rewrite Hfalsy, Hread. simpl.
  destruct (mt_type typeInfo =? "application/graphql")%string.
  - destruct body; simpl; reflexivity.
  - rewrite andb_false_r. reflexivity.
Qed.

(** With content type [application/json], the mapping of a body that was
    read is an object. *)
Lemma parseBody_json_is_object (req : IncomingMessage) (body : JSValue)
    (contentType : string) (typeInfo : ParsedMediaType) (rawBody : string)
    (bodyData : JSValue) :
  typeof body <> "object" ->
  truthy body = false ->
  header req "content-type" = Some contentType ->
  contentType_parse contentType = Return typeInfo ->
  mt_type typeInfo = "application/json" ->
  readBody req typeInfo = Return rawBody ->
  parseBody req body = Return bodyData ->
  exists fields, bodyData = JSObject fields.
Proof.
  intros Hobj Hfalsy Hheader Hparse Htype Hread.
  rewrite (parseBody_unparsed req body contentType typeInfo rawBody)
    by assumption.
  rewrite Htype. cbn [String.eqb Ascii.eqb Bool.eqb].
  destruct (jsonObjRegex_test rawBody) eqn:Hregex; [| discriminate].
  destruct (JSON.parse rawBody) as [parsed |] eqn:Hjson; [| discriminate].
  intros Hreturn. injection Hreturn as <-.
  exact (accepted_json_is_object rawBody parsed Hregex Hjson).
Qed.

(** C6: with content type [application/json], a decoded body whose first
    non-whitespace character is not an opening brace is a 400 malformed-body
    error, and so is a body that starts with the brace and is not JSON. *)
Theorem C6_json_body_must_be_an_object
    (req : IncomingMessage) (body : JSValue) (contentType : string)
    (typeInfo : ParsedMediaType) (rawBody : string) :
  typeof body <> "object" ->
  truthy body = false ->
  header req "content-type" = Some contentType ->
  contentType_parse contentType = Return typeInfo ->
  mt_type typeInfo = "application/json" ->
  readBody req typeInfo = Return rawBody ->
  (first_non_whitespace rawBody <> Some "{"%char ->
   parseBody req body = Throw (httpError 400 "POST body sent invalid JSON."))
  /\
  (first_non_whitespace rawBody = Some "{"%char ->
   JSON.parse rawBody = None ->
   parseBody req body = Throw (httpError 400 "POST body sent invalid JSON.")).
Proof.
  intros Hobj Hfalsy Hheader Hparse Htype Hread.
  rewrite (parseBody_unparsed req body contentType typeInfo rawBody)
    by assumption.
  rewrite Htype. simpl.
  split.
  - intros Hfirst.
    destruct (jsonObjRegex_test rawBody) eqn:Hregex; [| reflexivity].
    apply jsonObjRegex_first_non_whitespace in Hregex. contradiction.
  - intros Hfirst Hjson.
    apply jsonObjRegex_first_non_whitespace in Hfirst.
    rewrite Hfirst, Hjson. reflexivity.
Qed.

(** ** The body decoder *)

(** C7: a charset (the [charset] parameter in lower case, [utf-8] without
    one) that does not start with [utf-] is a 415 error of [readBody]; with
    one that does, the stream is read and its text returned. *)
Theorem C7_charset_must_be_utf (req : IncomingMessage) (typeInfo : ParsedMediaType) :
  (startsWith (charset_of typeInfo) "utf-" = false ->
   readBody req typeInfo =
     Throw (httpError 415
              ("Unsupported charset " ++ quoted (toUpperCase (charset_of typeInfo)) ++ ".")))
  /\
  (startsWith (charset_of typeInfo) "utf-" = true ->
   let encoding := match header req "content-encoding" with
                   | Some e => toLowerCase e
                   | None => "identity"
                   end in
   let length := if (encoding =? "identity")%string
                 then header req "content-length" else None in
   forall (stream : Stream) (text : string),
     decompressed req encoding = Return stream ->
     getBody stream (mkGetBodyOptions (charset_of typeInfo) length (100 * 1024))
       = inr text ->
     readBody req typeInfo = Return text).
Proof.
  split.
  - intros Hcharset. unfold readBody. rewrite Hcharset. reflexivity.
  - intros Hcharset encoding length stream text Hstream Hbody.
    subst encoding length.
    unfold readBody. rewrite Hcharset. cbn [negb].
    rewrite Hstream. cbn [bindC].
    rewrite Hbody. reflexivity.
Qed.

(** ** A body that is a Buffer *)

(** C8, as the code has it: a Buffer is not used as the body mapping, and it
    is not decoded either. Without a content type, and with one that parses,
    the mapping is empty, and the stream is never read. *)
Theorem C8_buffer_body_is_dropped (req : IncomingMessage) (bytes : string) :
  parseBody req (JSBuffer bytes) =
    match header req "content-type" with
    | None => Return (JSObject [])
    | Some contentType =>
        bindC (contentType_parse contentType) (fun _ => Return (JSObject []))
    end
  /\ parseBody req (JSBuffer bytes) <> Return (JSBuffer bytes).
Proof.
  assert (Heq : parseBody req (JSBuffer bytes) =
    match header req "content-type" with
    | None => Return (JSObject [])
    | Some contentType =>
        bindC (contentType_parse contentType) (fun _ => Return (JSObject []))
    end).
  { unfold parseBody. simpl.
    destruct (header req "content-type") as [contentType |]; [| reflexivity].
    destruct (contentType_parse contentType); reflexivity. }
  split; [exact Heq |].
  rewrite Heq.
  destruct (header req "content-type") as [contentType |]; [| discriminate].
  destruct (contentType_parse contentType); simpl; discriminate.
Qed.

(** ** The parameter resolver *)

(** [getGraphQLParams] after [parseBody]: the three values, and a failure
    only of the variables. *)
Lemma getGraphQLParams_resolved (req : IncomingMessage) (body bodyData : JSValue) :
  parseBody req body = Return bodyData ->
  getGraphQLParams req body =
    bindC
      (match nullish (js_of_option (URLSearchParams.get (urlData req) "variables"))
                     (js_get bodyData "variables") with
       | JSString text =>
           match JSON.parse text with
           | Some parsed => Return parsed
           | None => Throw (httpError 400 "Variables are invalid JSON.")
           end
       | v => if negb (typeof v =? "object")%string then Return JSNull else Return v
       end)
      (fun variables =>
         Return (mkParams
                   (string_or_null
                      (nullish (js_of_option (URLSearchParams.get (urlData req) "query"))
                               (js_get bodyData "query")))
                   variables
                   (string_or_null
                      (nullish (js_of_option
                                  (URLSearchParams.get (urlData req) "operationName"))
                               (js_get bodyData "operationName")))
                   (match URLSearchParams.get (urlData req) "raw" with
                    | Some _ => true
                    | None => false
                    end
                    || match js_get bodyData "raw" with
                       | JSUndefined => false
                       | _ => true
                       end)%bool)).
Proof.
  intros Hbody. unfold getGraphQLParams. rewrite Hbody. cbn [bindC].
  destruct (nullish (js_of_option (URLSearchParams.get (urlData req) "variables"))
                    (js_get bodyData "variables")); reflexivity.
Qed.

Lemma getGraphQLParams_parsed (req : IncomingMessage) (body : JSValue)
    (p : GraphQLParams) :
  getGraphQLParams req body = Return p ->
  exists bodyData, parseBody req body = Return bodyData.
Proof.
  unfold getGraphQLParams.
  destruct (parseBody req body) as [bodyData | e]; cbn [bindC].
  - intros _. exists bodyData. reflexivity.
  - discriminate.
Qed.

(** C2: a key of the query string wins over the body. When the query string
    has [query], [variables] or [operationName], the resolved value is that
    of the query string (for [variables]: its JSON decoding), the empty text
    included, whatever the body holds. *)
Theorem C2_query_string_takes_precedence
    (req : IncomingMessage) (body : JSValue) (p : GraphQLParams) :
  getGraphQLParams req body = Return p ->
  (forall q, URLSearchParams.get (urlData req) "query" = Some q ->
             query p = Some q)
  /\
  (forall v, URLSearchParams.get (urlData req) "variables" = Some v ->
             JSON.parse v = Some (variables p))
  /\
  (forall o, URLSearchParams.get (urlData req) "operationName" = Some o ->
             operationName p = Some o).
Proof.
  intros Hp.
  destruct (getGraphQLParams_parsed req body p Hp) as [bodyData Hbody].
  rewrite (getGraphQLParams_resolved req body bodyData Hbody) in Hp.
  repeat split.
  - intros q Hq. rewrite Hq in Hp. cbn [js_of_option nullish string_or_null] in Hp.
    destruct (match nullish _ _ with JSString _ => _ | _ => _ end) in Hp;
      cbn [bindC] in Hp; [| discriminate].
    injection Hp as <-. reflexivity.
  - intros v Hv. rewrite Hv in Hp. cbn [js_of_option nullish] in Hp.
    destruct (JSON.parse v) as [parsed |]; cbn [bindC] in Hp; [| discriminate].
    injection Hp as <-. reflexivity.
  - intros o Ho. rewrite Ho in Hp. cbn [js_of_option nullish string_or_null] in Hp.
    destruct (match nullish _ _ with JSString _ => _ | _ => _ end) in Hp;
      cbn [bindC] in Hp; [| discriminate].
    injection Hp as <-. reflexivity.
Qed.

(** C3: when the variables that win (query string before body) are a text
    that is not JSON, the resolution fails with the 400 error of the
    variables, for every request and so every content type. *)
Theorem C3_invalid_variables_text
    (req : IncomingMessage) (body bodyData : JSValue) (text : string) :
  parseBody req body = Return bodyData ->
  nullish (js_of_option (URLSearchParams.get (urlData req) "variables"))
          (js_get bodyData "variables") = JSString text ->
  JSON.parse text = None ->
  getGraphQLParams req body = Throw (httpError 400 "Variables are invalid JSON.").
Proof.
  intros Hbody Hvariables Hjson.
  rewrite (getGraphQLParams_resolved req body bodyData Hbody).
  rewrite Hvariables, Hjson. reflexivity.
Qed.

(** C10, as the code has it: with an empty [variables] in the query
    string, the resolution always fails. The body is interpreted first: for
    every body mapping that [parseBody] returns the failure is the 400 error
    of the variables, and when [parseBody] throws, its error is the failure.
    Parameters are returned for no request at all. *)
Theorem C10_empty_variables_in_query_string (req : IncomingMessage) (body : JSValue) :
  URLSearchParams.get (urlData req) "variables" = Some "" ->
  (forall bodyData, parseBody req body = Return bodyData ->
     getGraphQLParams req body = Throw (httpError 400 "Variables are invalid JSON."))
  /\
  (forall error, parseBody req body = Throw error ->
     getGraphQLParams req body = Throw error)
  /\
  (forall p, getGraphQLParams req body <> Return p).
Proof.
  intros Hempty.
  assert (Hfails : forall bodyData, parseBody req body = Return bodyData ->
            getGraphQLParams req body =
              Throw (httpError 400 "Variables are invalid JSON.")).
  { intros bodyData Hbody.
    rewrite (getGraphQLParams_resolved req body bodyData Hbody).
    rewrite Hempty. reflexivity. }
  split; [exact Hfails |].
  split.
  - intros error Hbody. unfold getGraphQLParams. rewrite Hbody. reflexivity.
  - intros p Hp.
    destruct (getGraphQLParams_parsed req body p Hp) as [bodyData Hbody].
    rewrite (Hfails bodyData Hbody) in Hp. discriminate.
Qed.

(** Variables that are not a text end as [null] or as a value of type
    [object]: the test that the decoded text does not get. *)
Lemma variables_not_text_object_or_null
    (req : IncomingMessage) (body bodyData : JSValue) (p : GraphQLParams) :
  parseBody req body = Return bodyData ->
  (forall text,
     nullish (js_of_option (URLSearchParams.get (urlData req) "variables"))
             (js_get bodyData "variables") <> JSString text) ->
  getGraphQLParams req body = Return p ->
  typeof (variables p) = "object".
Proof.
  intros Hbody Hnot Hp.
  rewrite (getGraphQLParams_resolved req body bodyData Hbody) in Hp.
  destruct (nullish (js_of_option (URLSearchParams.get (urlData req) "variables"))
                    (js_get bodyData "variables")) eqn:Hv;
    cbn in Hp; try (injection Hp as <-; reflexivity).
  exfalso. exact (Hnot s eq_refl).
Qed.

(** C4, at the input where the code leaves it: the query string
    [variables=3] gives the number 3 as the variables, not [null]. *)
Theorem C4_decoded_variables_keep_any_json_value (stream : Stream) :
  getGraphQLParams
    (mkRequest (Some "/graphql?query=%7B%20hello%20%7D&variables=3") [] stream)
    JSUndefined
  = Return (mkParams (Some "{ hello }") (JSNumber "3") None false).
Proof. reflexivity. Qed.

End BodyAndParameters.

Section Pipeline.
Context {P : Platform} {G : GraphQLEngine}.

(** ** The middleware around the outcome *)

(** The response that [graphqlHTTP_respond] leaves. *)
Lemma graphqlHTTP_respond_spec (data : OptionsData) (ctx : Context)
    (result : ExecutionResult) (r1 : Response) :
  graphqlHTTP_respond data ctx result r1 =
    (Return tt,
     mkResponse
       (if ((res_status r1 =? 200) && negb (truthy (result_data result)))%bool
        then 500 else res_status r1)
       (res_headers r1)
       (Some "application/json")
       (Some (if pretty data
              then PayloadStringified 2 (format_result data ctx result)
              else PayloadObject (format_result data ctx result)))).
Proof.
  unfold graphqlHTTP_respond, bindE, get_status, set_status, set_type, set_body, ret.
  destruct ((res_status r1 =? 200) && negb (truthy (result_data result)))%bool;
    reflexivity.
Qed.

(** The [try] statement always has an outcome: what the block returns, or
    the error it throws with that error's status. *)
Lemma graphqlHTTP_outcome_spec (data : OptionsData) (ctx : Context) (r0 : Response) :
  graphqlHTTP_outcome data ctx r0 =
    match graphqlHTTP_try data ctx r0 with
    | (Return result, r1) => (Return result, r1)
    | (Throw error, r1) =>
        (Return (mkResult (Some [error]) JSUndefined JSUndefined),
         with_status (status_or_500 error) r1)
    end.
Proof.
  unfold graphqlHTTP_outcome, try_catch.
  destruct (graphqlHTTP_try data ctx r0) as [[result | error] r1]; reflexivity.
Qed.

Lemma graphqlHTTP_outcome_returns (data : OptionsData) (ctx : Context) (r0 : Response) :
  exists result r1, graphqlHTTP_outcome data ctx r0 = (Return result, r1).
Proof.
  rewrite graphqlHTTP_outcome_spec.
  destruct (graphqlHTTP_try data ctx r0) as [[result | error] r1]; eauto.
Qed.

(** With GET or POST, resolved options and a schema, the middleware hands
    to [next] the response made from the outcome. *)
Lemma graphqlHTTP_middleware_spec (options : Options) (ctx : Context)
    (next : Eff unit) (r0 : Response) (data : OptionsData) (s : GraphQLSchema)
    (result : ExecutionResult) (r1 : Response) :
  method ctx = "GET" \/ method ctx = "POST" ->
  parseOptions options ctx r0 = (Return data, r0) ->
  schema data = Some s ->
  graphqlHTTP_outcome data ctx r0 = (Return result, r1) ->
  graphqlHTTP_middleware options ctx next r0 =
    next (snd (graphqlHTTP_respond data ctx result r1)).
Proof.
  intros Hmethod Hoptions Hschema Houtcome.
  unfold graphqlHTTP_middleware.
  assert (Htest : (negb (method ctx =? "GET")%string
                   && negb (method ctx =? "POST")%string)%bool = false).
  { destruct Hmethod as [-> | ->]; reflexivity. }
  rewrite Htest. unfold bindE at 1. rewrite Hoptions, Hschema.
  unfold bindE. rewrite Houtcome.
  destruct (graphqlHTTP_respond data ctx result r1) as [[[] | e] r] eqn:Hrespond.
  - reflexivity.
  - rewrite graphqlHTTP_respond_spec in Hrespond. discriminate.
Qed.

(** The block with parameters and a thrown query: the [catch] gives the
    error's status. *)
Lemma graphqlHTTP_try_spec (data : OptionsData) (ctx : Context) (r0 : Response)
    (params : GraphQLParams) :
  getGraphQLParams (req ctx) (body ctx) = Return params ->
  graphqlHTTP_try data ctx r0 =
    match parseQuery data params ctx r0 with
    | (Throw e, r1) => (Throw e, r1)
    | (Return query, r1) =>
        match extensionsFn data with
        | None => (Return (result query), r1)
        | Some extensionsFn =>
            match extensionsFn (mkRequestInfo (document query) (variables params)
                                  (operationName params) (result query) ctx) with
            | Throw e => (Throw e, r1)
            | Return extensions =>
                (Return (if (truthy extensions
                             && (typeof extensions =? "object")%string)%bool
                         then mkResult (result_errors (result query))
                                (result_data (result query)) extensions
                         else result query), r1)
            end
        end
    end.
Proof.
  intros Hparams. unfold graphqlHTTP_try, bindE, lift. rewrite Hparams.
  destruct (parseQuery data params ctx r0) as [[query | e] r1]; [| reflexivity].
  destruct (extensionsFn data) as [f |]; [| reflexivity].
  destruct (f _) as [extensions | e]; [| reflexivity].
  destruct (truthy extensions && (typeof extensions =? "object")%string)%bool;
    reflexivity.
Qed.

(** ** The operation pipeline *)

Lemma parseQuery_without_query (data : OptionsData) (params : GraphQLParams)
    (ctx : Context) (r0 : Response) :
  query params = None \/ query params = Some "" ->
  parseQuery data params ctx r0 =
    (Throw (httpError 400 "Must provide query string."), r0).
Proof.
  intros [Hq | Hq]; unfold parseQuery; rewrite Hq; reflexivity.
Qed.

Lemma parseQuery_invalid_schema (data : OptionsData) (params : GraphQLParams)
    (ctx : Context) (r0 : Response) (q : string) (s : GraphQLSchema) :
  query params = Some q -> q <> "" ->
  schema data = Some s ->
  validateSchema s <> [] ->
  parseQuery data params ctx r0 =
    (Return (errors_only (validateSchema s)), with_status 500 r0).
Proof.
  intros Hq Hne Hschema Hinvalid.
  unfold parseQuery. rewrite Hq.
  apply String.eqb_neq in Hne. rewrite Hne, Hschema.
  destruct (validateSchema s) as [| e es]; [contradiction | reflexivity].
Qed.

(** Past the schema, the parser and the validation: the check of the
    operation's kind on GET, then the execution. *)
Lemma parseQuery_validated (data : OptionsData) (params : GraphQLParams)
    (ctx : Context) (r0 : Response) (q : string) (s : GraphQLSchema)
    (doc : DocumentNode) :
  query params = Some q -> q <> "" ->
  schema data = Some s ->
  validateSchema s = [] ->
  parse q = inr doc ->
  validate s doc (specifiedRules ++
                  match validationRules data with Some rules => rules | None => [] end)
    = [] ->
  parseQuery data params ctx r0 =
    match (if (method ctx =? "GET")%string then
             match getOperationAST doc (operationName params) with
             | Some OpQuery | None => None
             | Some operation => Some operation
             end
           else None) with
    | Some operation =>
        (Throw (httpError 405
                  ("Can only perform a " ++ operation_text operation ++
                   " operation from a POST request.")),
         with_header "Allow" "POST" r0)
    | None =>
        match execute s doc (rootValue data) ctx (variables params)
                (operationName params) (fieldResolver data) with
        | Return result =>
            (Return (mkQueryResult result (Some doc)), with_status 200 r0)
        | Throw contextError =>
            (Return (errors_only [contextError]), with_status 400 r0)
        end
    end.
Proof.
  intros Hq Hne Hschema Hvalid Hparse Hvalidate.
  unfold parseQuery. rewrite Hq.
  apply String.eqb_neq in Hne. rewrite Hne, Hschema, Hvalid. cbn [length Nat.ltb Nat.leb].
  rewrite Hparse, Hvalidate. cbn [length Nat.ltb Nat.leb].
  destruct (if (method ctx =? "GET")%string then _ else None) as [operation |].
  - reflexivity.
  - destruct (execute _ _ _ _ _ _ _); reflexivity.
Qed.

(** C1, as the code has it: the query is looked at before the schema. A
    request without a query (absent or empty) is a 400 error whatever the
    schema; a request with a query and a schema that fails validation has an
    outcome of status 500. *)
Theorem C1_query_presence_before_schema_validity
    (options : Options) (ctx : Context) (next : Eff unit) (r0 : Response)
    (data : OptionsData) (s : GraphQLSchema) (params : GraphQLParams) :
  method ctx = "GET" \/ method ctx = "POST" ->
  parseOptions options ctx r0 = (Return data, r0) ->
  schema data = Some s ->
  getGraphQLParams (req ctx) (body ctx) = Return params ->
  (query params = None \/ query params = Some "" ->
   parseQuery data params ctx r0 =
     (Throw (httpError 400 "Must provide query string."), r0)
   /\ exists r, graphqlHTTP_middleware options ctx next r0 = next r
                /\ res_status r = 400)
  /\
  (forall q, query params = Some q -> q <> "" -> validateSchema s <> [] ->
   parseQuery data params ctx r0 =
     (Return (errors_only (validateSchema s)), with_status 500 r0)
   /\ (extensionsFn data = None ->
       exists r, graphqlHTTP_middleware options ctx next r0 = next r
                 /\ res_status r = 500)).
Proof.
  intros Hmethod Hoptions Hschema Hparams. split.
  - intros Hq.
    pose proof (parseQuery_without_query data params ctx r0 Hq) as Hthrow.
    split; [exact Hthrow |].
    eexists. split.
    + eapply (graphqlHTTP_middleware_spec options ctx next r0 data s);
        [exact Hmethod | exact Hoptions | exact Hschema |].
      rewrite graphqlHTTP_outcome_spec.
      rewrite (graphqlHTTP_try_spec data ctx r0 params Hparams), Hthrow.
      reflexivity.
    + rewrite graphqlHTTP_respond_spec. reflexivity.
  - intros q Hq Hne Hinvalid.
    pose proof (parseQuery_invalid_schema data params ctx r0 q s
                  Hq Hne Hschema Hinvalid) as Hreturn.
    split; [exact Hreturn |].
    intros Hhook. eexists. split.
    + eapply (graphqlHTTP_middleware_spec options ctx next r0 data s);
        [exact Hmethod | exact Hoptions | exact Hschema |].
      rewrite graphqlHTTP_outcome_spec.
      rewrite (graphqlHTTP_try_spec data ctx r0 params Hparams), Hreturn, Hhook.
      reflexivity.
    + rewrite graphqlHTTP_respond_spec. reflexivity.
Qed.

(** C5: on GET, a validated document whose operation is not a query is a
    405 response with the header [Allow: POST]; the same request on POST
    reaches the execution, and has status 200 when that returns. *)
Theorem C5_get_runs_queries_only
    (options : Options) (ctx : Context) (next : Eff unit) (r0 : Response)
    (data : OptionsData) (s : GraphQLSchema) (params : GraphQLParams)
    (q : string) (doc : DocumentNode) (operation : OperationTypeNode) :
  method ctx = "GET" ->
  parseOptions options ctx r0 = (Return data, r0) ->
  schema data = Some s ->
  getGraphQLParams (req ctx) (body ctx) = Return params ->
  query params = Some q -> q <> "" ->
  validateSchema s = [] ->
  parse q = inr doc ->
  validate s doc (specifiedRules ++
                  match validationRules data with Some rules => rules | None => [] end)
    = [] ->
  getOperationAST doc (operationName params) = Some operation ->
  operation <> OpQuery ->
  (exists r, graphqlHTTP_middleware options ctx next r0 = next r
             /\ res_status r = 405
             /\ assoc "Allow" (res_headers r) = Some "POST"
             /\ res_body r =
                  Some (let errs :=
                          format_result data ctx
                            (mkResult
                               (Some [httpError 405
                                        ("Can only perform a " ++ operation_text operation
                                         ++ " operation from a POST request.")])
                               JSUndefined JSUndefined) in
                        if pretty data then PayloadStringified 2 errs
                        else PayloadObject errs))
  /\
  (let post := mkContext "POST" (req ctx) (body ctx) in
   getGraphQLParams (req post) (body post) = Return params
   /\ forall result,
        execute s doc (rootValue data) post (variables params)
          (operationName params) (fieldResolver data) = Return result ->
        parseQuery data params post r0 =
          (Return (mkQueryResult result (Some doc)), with_status 200 r0)).
Proof.
  intros Hget Hoptions Hschema Hparams Hq Hne Hvalid Hparse Hvalidate Hop Hkind.
  split.
  - pose proof (parseQuery_validated data params ctx r0 q s doc
                  Hq Hne Hschema Hvalid Hparse Hvalidate) as Hquery.
    rewrite Hget, Hop in Hquery. cbn [String.eqb Ascii.eqb Bool.eqb] in Hquery.
    assert (Hthrow : parseQuery data params ctx r0 =
              (Throw (httpError 405
                        ("Can only perform a " ++ operation_text operation ++
                         " operation from a POST request.")),
               with_header "Allow" "POST" r0)).
    { rewrite Hquery. destruct operation; [contradiction | reflexivity | reflexivity]. }
    eexists. split; [| split; [| split]].
    + eapply (graphqlHTTP_middleware_spec options ctx next r0 data s);
        [exact (or_introl Hget) | exact Hoptions | exact Hschema |].
      rewrite graphqlHTTP_outcome_spec.
      rewrite (graphqlHTTP_try_spec data ctx r0 params Hparams), Hthrow.
      reflexivity.
    + rewrite graphqlHTTP_respond_spec. reflexivity.
    + rewrite graphqlHTTP_respond_spec. reflexivity.
    + rewrite graphqlHTTP_respond_spec. reflexivity.
  - cbn zeta. split; [exact Hparams |].
    intros result Hexecute.
    rewrite (parseQuery_validated data params _ r0 q s doc
               Hq Hne Hschema Hvalid Hparse Hvalidate).
    cbn [method String.eqb Ascii.eqb Bool.eqb]. rewrite Hexecute. reflexivity.
Qed.

(** ** The status after the outcome *)

(** C9, as the code has it: the [try] statement leaves an outcome and its
    status; after it the status changes in one case only, from 200 to 500
    when the outcome has no data, and "no data" is the test [!result.data]:
    a [data] field that is absent, [null] or falsy. Without an extensions
    function, an execution that returns a data object and no errors keeps
    200, and the body is that result. *)
Theorem C9_status_escalates_only_without_data
    (options : Options) (ctx : Context) (next : Eff unit) (r0 : Response)
    (data : OptionsData) (s : GraphQLSchema) :
  method ctx = "GET" \/ method ctx = "POST" ->
  parseOptions options ctx r0 = (Return data, r0) ->
  schema data = Some s ->
  (exists result r1 r,
     graphqlHTTP_outcome data ctx r0 = (Return result, r1)
     /\ graphqlHTTP_middleware options ctx next r0 = next r
     /\ (res_status r1 = 200 -> truthy (result_data result) = false ->
         res_status r = 500)
     /\ (res_status r1 = 200 -> result_data result = JSUndefined ->
         res_status r = 500)
     /\ (res_status r <> res_status r1 ->
         res_status r1 = 200 /\ truthy (result_data result) = false
         /\ res_status r = 500))
  /\
  (forall params q doc fields,
     getGraphQLParams (req ctx) (body ctx) = Return params ->
     query params = Some q -> q <> "" ->
     validateSchema s = [] ->
     parse q = inr doc ->
     validate s doc (specifiedRules ++
                     match validationRules data with Some rules => rules | None => [] end)
       = [] ->
     (method ctx = "GET" ->
      getOperationAST doc (operationName params) = Some OpQuery
      \/ getOperationAST doc (operationName params) = None) ->
     execute s doc (rootValue data) ctx (variables params) (operationName params)
       (fieldResolver data) = Return (mkResult None (JSObject fields) JSUndefined) ->
     extensionsFn data = None ->
     exists r, graphqlHTTP_middleware options ctx next r0 = next r
               /\ res_status r = 200
               /\ res_body r =
                    Some (let body := mkFormatted None (JSObject fields) JSUndefined in
                          if pretty data then PayloadStringified 2 body
                          else PayloadObject body)).
Proof.
  intros Hmethod Hoptions Hschema. split.
  - destruct (graphqlHTTP_outcome_returns data ctx r0) as (result & r1 & Houtcome).
    exists result, r1, (snd (graphqlHTTP_respond data ctx result r1)).
    split; [exact Houtcome |].
    split.
    { exact (graphqlHTTP_middleware_spec options ctx next r0 data s result r1
               Hmethod Hoptions Hschema Houtcome). }
    rewrite graphqlHTTP_respond_spec. cbn [snd res_status].
    split; [| split].
    + intros H200 Hfalsy. rewrite H200, Hfalsy. reflexivity.
    + intros H200 Habsent. rewrite H200, Habsent. reflexivity.
    + intros Hchanged.
      destruct (res_status r1 =? 200) eqn:H200;
        cbn [andb] in Hchanged |- *; [| contradiction].
      apply Z.eqb_eq in H200.
      destruct (truthy (result_data result));
        cbn [negb] in Hchanged |- *; [contradiction |].
      auto.
  - intros params q doc fields Hparams Hq Hne Hvalid Hparse Hvalidate Hkind
           Hexecute Hhook.
    pose proof (parseQuery_validated data params ctx r0 q s doc
                  Hq Hne Hschema Hvalid Hparse Hvalidate) as Hquery.
    assert (Hpass : (if (method ctx =? "GET")%string then
                       match getOperationAST doc (operationName params) with
                       | Some OpQuery | None => None
                       | Some operation => Some operation
                       end
                     else None) = None).
    { destruct (method ctx =? "GET")%string eqn:Hget; [| reflexivity].
      apply String.eqb_eq in Hget.
      destruct (Hkind Hget) as [-> | ->]; reflexivity. }
    rewrite Hpass, Hexecute in Hquery.
    eexists. split; [| split].
    + eapply (graphqlHTTP_middleware_spec options ctx next r0 data s);
        [exact Hmethod | exact Hoptions | exact Hschema |].
      rewrite graphqlHTTP_outcome_spec.
      rewrite (graphqlHTTP_try_spec data ctx r0 params Hparams), Hquery, Hhook.
      reflexivity.
    + rewrite graphqlHTTP_respond_spec. reflexivity.
    + rewrite graphqlHTTP_respond_spec. reflexivity.
Qed.

End Pipeline.

(** * The properties on examples *)

Section Examples.
Import Example.

Lemma C6_witness :
  parseBody json_array JSUndefined = Throw (httpError 400 "POST body sent invalid JSON.")
  /\ parseBody json_cut JSUndefined = Throw (httpError 400 "POST body sent invalid JSON.").
Proof.
  split.
  - refine (proj1 (C6_json_body_must_be_an_object json_array JSUndefined
                     "application/json" (mkMediaType "application/json" [])
                     "  [1, 2]" _ eq_refl eq_refl eq_refl eq_refl eq_refl) _);
      discriminate.
  - refine (proj2 (C6_json_body_must_be_an_object json_cut JSUndefined
                     "application/json" (mkMediaType "application/json" [])
                     (text " {'query': ") _ eq_refl eq_refl eq_refl eq_refl eq_refl)
                  eq_refl eq_refl).
    discriminate.
Defined.

Lemma C7_witness :
  readBody json_hello (mkMediaType "application/json" [("charset", "ISO-8859-1")])
    = Throw (httpError 415 ("Unsupported charset " ++ quoted "ISO-8859-1" ++ "."))
  /\ readBody json_hello (mkMediaType "application/json" [("charset", "UTF-8")])
     = Return (text "{'query':'{ hello }'}").
Proof.
  split.
  - exact (proj1 (C7_charset_must_be_utf json_hello
                    (mkMediaType "application/json" [("charset", "ISO-8859-1")]))
                 eq_refl).
  - exact (proj2 (C7_charset_must_be_utf json_hello
                    (mkMediaType "application/json" [("charset", "UTF-8")]))
                 eq_refl (text "{'query':'{ hello }'}") (text "{'query':'{ hello }'}")
                 eq_refl eq_refl).
Defined.

Lemma C2_witness :
  let p := mkParams (Some "{ hello }") (JSObject [("a", JSNumber "1")]) (Some "") false in
  query p = Some "{ hello }"
  /\ JSON.parse (text "{'a':1}") = Some (variables p)
  /\ operationName p = Some "".
Proof.
  intros p.
  destruct (C2_query_string_takes_precedence both JSUndefined p eq_refl)
    as (Hquery & Hvariables & Hname).
  exact (conj (Hquery _ eq_refl) (conj (Hvariables _ eq_refl) (Hname _ eq_refl))).
Defined.

Lemma C3_witness :
  getGraphQLParams form_not_json JSUndefined
    = Throw (httpError 400 "Variables are invalid JSON.").
Proof.
  exact (C3_invalid_variables_text form_not_json JSUndefined
           (JSObject [("query", JSString "{ hello }");
                      ("variables", JSString "not json")])
           "not json" eq_refl eq_refl eq_refl).
Defined.

Lemma C10_witness :
  getGraphQLParams empty_variables JSUndefined
    = Throw (httpError 400 "Variables are invalid JSON.").
Proof.
  exact (proj1 (C10_empty_variables_in_query_string empty_variables JSUndefined eq_refl)
           (JSObject [("query", JSString "{ hello }");
                      ("variables", JSObject [("a", JSNumber "1")])])
           eq_refl).
Defined.

(** C10 as it was stated fails: with [?variables=], a body in a charset that
    is not a UTF fails with the 415 error of the charset, and a JSON body
    that is an array with the 400 error of the body, not with the error of
    the variables. *)
Lemma C10_counterexample :
  let latin1 := request "/graphql?variables="
                  [("content-type", "application/json; charset=latin1")] "{}" in
  let array := request "/graphql?variables=" json "  [1, 2]" in
  URLSearchParams.get (urlData latin1) "variables" = Some ""
  /\ getGraphQLParams latin1 JSUndefined
     = Throw (httpError 415 ("Unsupported charset " ++ quoted "LATIN1" ++ "."))
  /\ getGraphQLParams latin1 JSUndefined
     <> Throw (httpError 400 "Variables are invalid JSON.")
  /\ URLSearchParams.get (urlData array) "variables" = Some ""
  /\ getGraphQLParams array JSUndefined
     = Throw (httpError 400 "POST body sent invalid JSON.")
  /\ getGraphQLParams array JSUndefined
     <> Throw (httpError 400 "Variables are invalid JSON.").
Proof.
  cbv zeta. repeat split; discriminate.
Qed.

(** C1 as the specification has it fails: a schema that does not validate
    and no query give status 400, not 500. *)
Lemma C1_counterexample :
  validateSchema BrokenSchema <> []
  /\ getGraphQLParams (req get_nothing) (body get_nothing)
     = Return (mkParams None JSNull None false)
  /\ res_status (snd (graphqlHTTP_middleware (options_value BrokenSchema)
                        get_nothing (ret tt) fresh)) = 400
  /\ res_status (snd (graphqlHTTP_middleware (options_value BrokenSchema)
                        get_nothing (ret tt) fresh)) <> 500.
Proof.
  repeat split; try reflexivity; discriminate.
Qed.

Lemma C1_witness :
  (exists r, graphqlHTTP_middleware (options_value BrokenSchema) get_nothing
               (ret tt) fresh = (Return tt, r)
             /\ res_status r = 400)
  /\
  (exists r, graphqlHTTP_middleware (options_value BrokenSchema) get_hello
               (ret tt) fresh = (Return tt, r)
             /\ res_status r = 500).
Proof.
  split.
  - destruct (C1_query_presence_before_schema_validity
                (options_value BrokenSchema) get_nothing (ret tt) fresh
                (options_for BrokenSchema) BrokenSchema
                (mkParams None JSNull None false)
                (or_introl eq_refl) eq_refl eq_refl eq_refl) as [Habsent _].
    exact (proj2 (Habsent (or_introl eq_refl))).
  - destruct (C1_query_presence_before_schema_validity
                (options_value BrokenSchema) get_hello (ret tt) fresh
                (options_for BrokenSchema) BrokenSchema
                (mkParams (Some "{ hello }") JSNull None false)
                (or_introl eq_refl) eq_refl eq_refl eq_refl) as [_ Hpresent].
    refine (proj2 (Hpresent "{ hello }" eq_refl _ _) eq_refl); discriminate.
Defined.

Lemma C5_witness :
  (exists r, graphqlHTTP_middleware (options_value GoodSchema) get_mutation
               (ret tt) fresh = (Return tt, r)
             /\ res_status r = 405
             /\ assoc "Allow" (res_headers r) = Some "POST")
  /\
  parseQuery (options_for GoodSchema)
    (mkParams (Some "mutation Inc { inc }") JSNull (Some "Inc") false)
    (mkContext "POST" (req get_mutation) (body get_mutation)) fresh
  = (Return (mkQueryResult (mkResult None (JSObject [("inc", JSNumber "1")]) JSUndefined)
               (Some [mkOperation (Some "Inc") OpMutation "inc"])),
     with_status 200 fresh).
Proof.
  destruct (C5_get_runs_queries_only
              (options_value GoodSchema) get_mutation (ret tt) fresh
              (options_for GoodSchema) GoodSchema
              (mkParams (Some "mutation Inc { inc }") JSNull (Some "Inc") false)
              "mutation Inc { inc }" [mkOperation (Some "Inc") OpMutation "inc"]
              OpMutation
              eq_refl eq_refl eq_refl eq_refl eq_refl
              ltac:(discriminate) eq_refl eq_refl eq_refl eq_refl
              ltac:(discriminate)) as [Hget Hpost].
  split.
  - destruct Hget as (r & Hrun & Hstatus & Hallow & _).
    exists r. exact (conj Hrun (conj Hstatus Hallow)).
  - exact (proj2 Hpost _ eq_refl).
Defined.

(** C9 as the specification has it fails: an outcome of status 200 that has
    a [data] field, holding [null], ends with status 500. *)
Lemma C9_counterexample :
  exists result r1,
    graphqlHTTP_outcome (options_for GoodSchema) post_broken fresh = (Return result, r1)
    /\ res_status r1 = 200
    /\ result_data result = JSNull
    /\ result_data result <> JSUndefined
    /\ res_status (snd (graphqlHTTP_middleware (options_value GoodSchema)
                          post_broken (ret tt) fresh)) = 500.
Proof.
  eexists. eexists.
  split; [reflexivity |].
  repeat split. discriminate.
Qed.

Lemma C9_witness :
  exists r, graphqlHTTP_middleware (options_value GoodSchema) get_hello
              (ret tt) fresh = (Return tt, r)
            /\ res_status r = 200
            /\ res_body r =
                 Some (PayloadObject
                         (mkFormatted None (JSObject [("hello", JSString "world")])
                            JSUndefined)).
Proof.
  exact (proj2 (C9_status_escalates_only_without_data
                  (options_value GoodSchema) get_hello (ret tt) fresh
                  (options_for GoodSchema) GoodSchema
                  (or_introl eq_refl) eq_refl eq_refl)
           (mkParams (Some "{ hello }") JSNull None false)
           "{ hello }" [mkOperation None OpQuery "hello"]
           [("hello", JSString "world")]
           eq_refl eq_refl ltac:(discriminate) eq_refl eq_refl eq_refl
           (fun _ => or_introl eq_refl) eq_refl eq_refl).
Defined.

(** C8 as the specification has it fails: with a Buffer as the body, the
    JSON text of the request is not read; without a body it is. *)
Lemma C8_counterexample :
  parseBody json_hello (JSBuffer (text "{'query':'{ hello }'}")) = Return (JSObject [])
  /\ parseBody json_hello JSUndefined
     = Return (JSObject [("query", JSString "{ hello }")])
  /\ parseBody json_hello (JSBuffer (text "{'query':'{ hello }'}"))
     <> parseBody json_hello JSUndefined.
Proof.
  repeat split. discriminate.
Qed.

End Examples.

(** * More of the code *)

Section Decoder.
Context {P : Platform}.

(** ** readBody and decompressed *)

(** A content encoding that is not [identity], [deflate] or [gzip] (in any
    case) is a 415 error, once the charset has passed; the stream is not
    touched. *)
Theorem readBody_unsupported_content_encoding
    (req : IncomingMessage) (typeInfo : ParsedMediaType) (contentEncoding : string) :
  startsWith (charset_of typeInfo) "utf-" = true ->
  header req "content-encoding" = Some contentEncoding ->
  toLowerCase contentEncoding <> "identity" ->
  toLowerCase contentEncoding <> "deflate" ->
  toLowerCase contentEncoding <> "gzip" ->
  readBody req typeInfo =
    Throw (httpError 415
             ("Unsupported content-encoding " ++ quoted (toLowerCase contentEncoding)
              ++ ".")).
Proof.
  intros Hcharset Hheader Hidentity Hdeflate Hgzip.
  unfold readBody. rewrite Hcharset, Hheader. cbn [negb].
  unfold decompressed.
  apply String.eqb_neq in Hidentity, Hdeflate, Hgzip.
  rewrite Hidentity, Hdeflate, Hgzip. reflexivity.
Qed.

(** The declared [Content-Length] is a hint for the identity encoding only:
    with another encoding, two requests with the same stream and the same
    [Content-Encoding] read the same body, whatever their other headers. *)
Theorem readBody_ignores_length_when_encoded
    (req1 req2 : IncomingMessage) (typeInfo : ParsedMediaType)
    (contentEncoding : string) :
  stream req1 = stream req2 ->
  header req1 "content-encoding" = Some contentEncoding ->
  header req2 "content-encoding" = Some contentEncoding ->
  toLowerCase contentEncoding <> "identity" ->
  readBody req1 typeInfo = readBody req2 typeInfo.
Proof.
  intros Hstream Hheader1 Hheader2 Hidentity.
  unfold readBody. rewrite Hheader1, Hheader2.
  apply String.eqb_neq in Hidentity. rewrite Hidentity.
  unfold decompressed. rewrite Hidentity, Hstream. reflexivity.
Qed.

(** Every error of [readBody] has a status that is not zero: the handler
    reports that status, not its default. *)
Theorem readBody_errors_have_a_status
    (req : IncomingMessage) (typeInfo : ParsedMediaType) (error : JSError) :
  readBody req typeInfo = Throw error ->
  exists status, err_status error = Some status /\ status <> 0.
Proof.
  unfold readBody.
  destruct (negb (startsWith (charset_of typeInfo) "utf-")).
  - intros H. injection H as <-. exists 415. split; [reflexivity | discriminate].
  - cbv zeta. unfold decompressed.
    set (encoding := match header req "content-encoding" with
                     | Some e => toLowerCase e
                     | None => "identity"
                     end).
    assert (Hread : forall (stream : Stream) length,
              match getBody stream (mkGetBodyOptions (charset_of typeInfo) length
                                      (100 * 1024)) with
              | inr text => Return text
              | inl rawError =>
                  Throw (mkError (Some (wrapped_status rawError))
                           (match raw_type rawError with
                            | Some "encoding.unsupported" =>
                                "Unsupported charset "
                                ++ quoted (toUpperCase (charset_of typeInfo)) ++ "."
                            | _ => "Invalid body: " ++ raw_message rawError ++ "."
                            end))
              end = Throw error ->
              exists status, err_status error = Some status /\ status <> 0).
    { intros stream length.
      destruct (getBody stream _) as [rawError | text]; [| discriminate].
      intros H. injection H as <-.
      exists (wrapped_status rawError). split; [reflexivity |].
      unfold wrapped_status.
      destruct (raw_status rawError) as [s |]; [| discriminate].
      destruct (s =? 0) eqn:Hs; [discriminate |].
      apply Z.eqb_neq. exact Hs. }
    destruct (encoding =? "identity")%string; [apply Hread |].
    destruct (encoding =? "deflate")%string; [apply Hread |].
    destruct (encoding =? "gzip")%string; [apply Hread |].
    cbn [bindC]. intros H. injection H as <-.
    exists 415. split; [reflexivity | discriminate].
Qed.

End Decoder.

Section Interpreter.
Context {P : Platform}.

(** ** parseBody *)

(** The body is decoded before the media type is looked at: without a
    body parsed earlier, a charset that is not a UTF is a 415 error for
    every media type, also one that would give the empty mapping; and a
    body that was read under a type other than the three known ones is
    read for nothing. *)
Theorem parseBody_decodes_before_dispatch
    (req : IncomingMessage) (contentType : string) (typeInfo : ParsedMediaType) :
  header req "content-type" = Some contentType ->
  contentType_parse contentType = Return typeInfo ->
  (startsWith (charset_of typeInfo) "utf-" = false ->
   parseBody req JSUndefined =
     Throw (httpError 415
              ("Unsupported charset " ++ quoted (toUpperCase (charset_of typeInfo))
               ++ ".")))
  /\
  (forall rawBody,
     readBody req typeInfo = Return rawBody ->
     mt_type typeInfo <> "application/graphql" ->
     mt_type typeInfo <> "application/json" ->
     mt_type typeInfo <> "application/x-www-form-urlencoded" ->
     parseBody req JSUndefined = Return (JSObject [])).
Proof.
  intros Hheader Hparse. split.
  - intros Hcharset. unfold parseBody. cbn [typeof String.eqb Ascii.eqb Bool.eqb andb].
    rewrite Hheader, Hparse. cbn [bindC truthy].
    unfold readBody. rewrite Hcharset. reflexivity.
  - intros rawBody Hread Hgraphql Hjson Hform.
    rewrite (parseBody_unparsed req JSUndefined contentType typeInfo rawBody)
      by (try assumption; try reflexivity; discriminate).
    apply String.eqb_neq in Hgraphql, Hjson, Hform.
    rewrite Hgraphql, Hjson, Hform. reflexivity.
Qed.

(** ** getGraphQLParams *)

Lemma urlData_of_url (req1 req2 : IncomingMessage) :
  url req1 = url req2 -> urlData req1 = urlData req2.
Proof. intros H. unfold urlData. rewrite H. reflexivity. Qed.

(** A body that an earlier middleware parsed into an object makes the
    request's headers and stream irrelevant: two requests with the same URL
    resolve to the same parameters (no charset, encoding or content-type
    failure can occur). *)
Theorem getGraphQLParams_parsed_object_ignores_request
    (req1 req2 : IncomingMessage) (body : JSValue) :
  typeof body = "object" ->
  instanceof_Buffer body = false ->
  url req1 = url req2 ->
  getGraphQLParams req1 body = getGraphQLParams req2 body.
Proof.
  intros Hobject Hbuffer Hurl.
  assert (Hbody : forall req,
            parseBody req body =
              Return (match body with JSNull => JSObject [] | _ => body end)).
  { intros req. unfold parseBody. rewrite Hobject, Hbuffer. reflexivity. }
  rewrite (getGraphQLParams_resolved req1 body _ (Hbody req1)).
  rewrite (getGraphQLParams_resolved req2 body _ (Hbody req2)).
  rewrite (urlData_of_url req1 req2 Hurl). reflexivity.
Qed.

(** What the query string alone resolves to. *)
Lemma getGraphQLParams_of_empty_mapping (req : IncomingMessage) (body : JSValue) :
  parseBody req body = Return (JSObject []) ->
  getGraphQLParams req body =
    bindC
      (match URLSearchParams.get (urlData req) "variables" with
       | Some text =>
           match JSON.parse text with
           | Some parsed => Return parsed
           | None => Throw (httpError 400 "Variables are invalid JSON.")
           end
       | None => Return JSNull
       end)
      (fun variables =>
         Return (mkParams (URLSearchParams.get (urlData req) "query") variables
                   (URLSearchParams.get (urlData req) "operationName")
                   (match URLSearchParams.get (urlData req) "raw" with
                    | Some _ => true
                    | None => false
                    end))).
Proof.
  intros Hbody.
  rewrite (getGraphQLParams_resolved req body _ Hbody).
  cbn [js_get assoc].
  destruct (URLSearchParams.get (urlData req) "variables") as [text |];
    destruct (URLSearchParams.get (urlData req) "query");
    destruct (URLSearchParams.get (urlData req) "operationName");
    destruct (URLSearchParams.get (urlData req) "raw");
    cbn [js_of_option nullish typeof String.eqb Ascii.eqb Bool.eqb negb
         string_or_null orb];
    try reflexivity;
    destruct (JSON.parse text); reflexivity.
Qed.

(** Without a [Content-Type] header, a body that is no parsed object is
    ignored: the parameters are those of the query string, and with no
    query string they are all absent. *)
Theorem getGraphQLParams_without_content_type
    (req : IncomingMessage) (body : JSValue) :
  header req "content-type" = None ->
  typeof body <> "object" \/ instanceof_Buffer body = true ->
  getGraphQLParams req body =
    bindC
      (match URLSearchParams.get (urlData req) "variables" with
       | Some text =>
           match JSON.parse text with
           | Some parsed => Return parsed
           | None => Throw (httpError 400 "Variables are invalid JSON.")
           end
       | None => Return JSNull
       end)
      (fun variables =>
         Return (mkParams (URLSearchParams.get (urlData req) "query") variables
                   (URLSearchParams.get (urlData req) "operationName")
                   (match URLSearchParams.get (urlData req) "raw" with
                    | Some _ => true
                    | None => false
                    end)))
  /\ (urlData req = [] ->
      getGraphQLParams req body = Return (mkParams None JSNull None false)).
Proof.
  intros Hheader Hbody.
  assert (Hempty : parseBody req body = Return (JSObject [])).
  { unfold parseBody.
    assert (Htest : ((typeof body =? "object")%string
                     && negb (instanceof_Buffer body))%bool = false).
    { destruct Hbody as [Hbody | Hbody].
      - apply String.eqb_neq in Hbody. rewrite Hbody. reflexivity.
      - rewrite Hbody. apply andb_false_r. }
    rewrite Htest, Hheader. reflexivity. }
  split.
  - exact (getGraphQLParams_of_empty_mapping req body Hempty).
  - intros Hurl.
    rewrite (getGraphQLParams_of_empty_mapping req body Hempty), Hurl.
    reflexivity.
Qed.

(** With [application/graphql] the text of the body is the query as it
    stands, unless the query string has one; the variables and the operation
    name can only come from the query string. *)
Theorem getGraphQLParams_graphql_body
    (req : IncomingMessage) (contentType : string) (typeInfo : ParsedMediaType)
    (rawBody : string) :
  header req "content-type" = Some contentType ->
  contentType_parse contentType = Return typeInfo ->
  mt_type typeInfo = "application/graphql" ->
  readBody req typeInfo = Return rawBody ->
  parseBody req JSUndefined = Return (JSObject [("query", JSString rawBody)])
  /\
  forall p, getGraphQLParams req JSUndefined = Return p ->
    query p = Some (match URLSearchParams.get (urlData req) "query" with
                    | Some q => q
                    | None => rawBody
                    end)
    /\ operationName p = URLSearchParams.get (urlData req) "operationName"
    /\ (URLSearchParams.get (urlData req) "variables" = None -> variables p = JSNull).
Proof.
  intros Hheader Hparse Htype Hread.
  assert (Hbody : parseBody req JSUndefined =
                    Return (JSObject [("query", JSString rawBody)])).
  { rewrite (parseBody_unparsed req JSUndefined contentType typeInfo rawBody)
      by (try assumption; try reflexivity; discriminate).
    rewrite Htype. reflexivity. }
  split; [exact Hbody |].
  intros p Hp.
  rewrite (getGraphQLParams_resolved req JSUndefined _ Hbody) in Hp.
  cbn [js_get assoc String.eqb Ascii.eqb Bool.eqb] in Hp.
  destruct (URLSearchParams.get (urlData req) "variables") as [text |];
    destruct (URLSearchParams.get (urlData req) "query");
    destruct (URLSearchParams.get (urlData req) "operationName");
    cbn [js_of_option nullish typeof String.eqb Ascii.eqb Bool.eqb negb
         string_or_null] in Hp;
    try (destruct (JSON.parse text); [| discriminate]);
    cbn [bindC] in Hp; injection Hp as <-;
    repeat split; try reflexivity; discriminate.
Qed.

(** [getGraphQLParams] fails for two reasons only: the body could not be
    interpreted, or the variables are a text that is not JSON. *)
Theorem getGraphQLParams_failures
    (req : IncomingMessage) (body : JSValue) (error : JSError) :
  getGraphQLParams req body = Throw error ->
  parseBody req body = Throw error
  \/ (error = httpError 400 "Variables are invalid JSON."
      /\ exists bodyData text,
           parseBody req body = Return bodyData
           /\ nullish (js_of_option (URLSearchParams.get (urlData req) "variables"))
                      (js_get bodyData "variables") = JSString text
           /\ JSON.parse text = None).
Proof.
  intros Hthrow.
  destruct (parseBody req body) as [bodyData | e] eqn:Hbody.
  - right.
    rewrite (getGraphQLParams_resolved req body bodyData Hbody) in Hthrow.
    destruct (nullish (js_of_option (URLSearchParams.get (urlData req) "variables"))
                      (js_get bodyData "variables")) as [| | | | text | | |] eqn:Hvariables;
      cbn in Hthrow; try discriminate.
    destruct (JSON.parse text) eqn:Hjson; cbn in Hthrow; [discriminate |].
    injection Hthrow as <-.
    split; [reflexivity |]. exists bodyData, text. auto.
  - left. unfold getGraphQLParams in Hthrow. rewrite Hbody in Hthrow.
    cbn [bindC] in Hthrow. injection Hthrow as <-. reflexivity.
Qed.

(** The resolver reads four keys of the body mapping and nothing else: two
    mappings that agree on [query], [variables] and [operationName], and on
    whether [raw] is there, resolve to the same parameters under the same
    URL. *)
Theorem getGraphQLParams_reads_four_keys
    (req1 req2 : IncomingMessage) (body1 body2 bodyData1 bodyData2 : JSValue) :
  url req1 = url req2 ->
  parseBody req1 body1 = Return bodyData1 ->
  parseBody req2 body2 = Return bodyData2 ->
  js_get bodyData1 "query" = js_get bodyData2 "query" ->
  js_get bodyData1 "variables" = js_get bodyData2 "variables" ->
  js_get bodyData1 "operationName" = js_get bodyData2 "operationName" ->
  (js_get bodyData1 "raw" = JSUndefined <-> js_get bodyData2 "raw" = JSUndefined) ->
  getGraphQLParams req1 body1 = getGraphQLParams req2 body2.
Proof.
  intros Hurl Hbody1 Hbody2 Hquery Hvariables Hname Hraw.
  rewrite (getGraphQLParams_resolved req1 body1 bodyData1 Hbody1).
  rewrite (getGraphQLParams_resolved req2 body2 bodyData2 Hbody2).
  rewrite (urlData_of_url req1 req2 Hurl), Hquery, Hvariables, Hname.
  assert (Hflag : match js_get bodyData1 "raw" with JSUndefined => false | _ => true end
                  = match js_get bodyData2 "raw" with JSUndefined => false | _ => true end).
  { destruct (js_get bodyData1 "raw") eqn:H1; destruct (js_get bodyData2 "raw") eqn:H2;
      try reflexivity;
      try (destruct Hraw as [Hraw _]; specialize (Hraw eq_refl); discriminate);
      destruct Hraw as [_ Hraw]; specialize (Hraw eq_refl); discriminate. }
  rewrite Hflag. reflexivity.
Qed.

End Interpreter.

Section QueryString.
Context {P : Platform}.

(** ** The query string of the URL *)

Lemma append_cons_assoc (a : string) (c : ascii) (b : string) :
  ((a ++ String c "") ++ b)%string = (a ++ String c b)%string.
Proof. induction a as [| x a IH]; cbn; [reflexivity | rewrite IH; reflexivity]. Qed.

Lemma append_empty (a : string) : (a ++ "")%string = a.
Proof. induction a as [| x a IH]; cbn; [reflexivity | rewrite IH; reflexivity]. Qed.

Lemma split_rec_without (sep : ascii) (s cur : string) :
  ~ In sep (list_ascii_of_string s) ->
  split_rec sep s cur = [(cur ++ s)%string].
Proof.
  revert cur. induction s as [| c s IH]; intros cur Hnot; cbn.
  - rewrite append_empty. reflexivity.
  - destruct (Ascii.eqb_spec c sep) as [-> | Hc].
    + exfalso. apply Hnot. left. reflexivity.
    + rewrite IH by (intros Hin; apply Hnot; right; exact Hin).
      rewrite append_cons_assoc. reflexivity.
Qed.

Lemma split_rec_first (sep : ascii) (s t cur : string) :
  ~ In sep (list_ascii_of_string s) ->
  split_rec sep (s ++ String sep t) cur = (cur ++ s)%string :: split_rec sep t "".
Proof.
  revert cur. induction s as [| c s IH]; intros cur Hnot; cbn.
  - rewrite Ascii.eqb_refl, append_empty. reflexivity.
  - destruct (Ascii.eqb_spec c sep) as [-> | Hc].
    + exfalso. apply Hnot. left. reflexivity.
    + rewrite IH by (intros Hin; apply Hnot; right; exact Hin).
      rewrite append_cons_assoc. reflexivity.
Qed.

(** [getGraphQLParams] reads the part of the URL between the first and the
    second question mark: what follows a second one is dropped, and a URL
    without one has no parameters. *)
Theorem urlData_between_question_marks
    (path qs rest : string) (headers : list (string * string)) (stream : Stream) :
  ~ In "?"%char (list_ascii_of_string path) ->
  ~ In "?"%char (list_ascii_of_string qs) ->
  urlData (mkRequest (Some (path ++ "?" ++ qs)) headers stream)
    = URLSearchParams.make (Some qs)
  /\ urlData (mkRequest (Some (path ++ "?" ++ qs ++ "?" ++ rest)) headers stream)
     = URLSearchParams.make (Some qs)
  /\ urlData (mkRequest (Some path) headers stream) = [].
Proof.
  intros Hpath Hqs. unfold urlData, split. cbn [url].
  repeat split.
  - change (path ++ "?" ++ qs)%string with (path ++ String "?" qs)%string.
    rewrite split_rec_first by exact Hpath.
    rewrite split_rec_without by exact Hqs. reflexivity.
  - change (path ++ "?" ++ qs ++ "?" ++ rest)%string
      with (path ++ String "?" (qs ++ String "?" rest))%string.
    rewrite split_rec_first by exact Hpath.
    rewrite split_rec_first by exact Hqs. reflexivity.
  - rewrite split_rec_without by exact Hpath. reflexivity.
Qed.

End QueryString.

Section EarlierParser.
Context {P : Platform}.

(** ** The earlier body parser *)

(** The earlier [parseBody] never reads the stream: a body that is [null]
    is returned by the first test, so the test [body !== null] holds for
    every body that reaches it, and the result is the body itself, the query
    of a string body, or the empty mapping. *)
Theorem legacy_parseBody_never_reads_the_stream
    (req : IncomingMessage) (body : JSValue) :
  Legacy.parseBody req body =
    if ((typeof body =? "object")%string && negb (instanceof_Buffer body))%bool then
      Return body
    else
      match header req "content-type" with
      | None => Return (JSObject [])
      | Some contentType =>
          bindC (contentType_parse contentType)
            (fun typeInfo =>
               if ((typeof body =? "string")%string &&
                   (mt_type typeInfo =? "application/graphql")%string)%bool
               then Return (JSObject [("query", body)])
               else Return (JSObject []))
      end.
Proof.
  unfold Legacy.parseBody.
  destruct body; cbn [typeof instanceof_Buffer String.eqb Ascii.eqb Bool.eqb andb negb];
    try reflexivity;
    destruct (header req "content-type") as [contentType |]; try reflexivity;
    destruct (contentType_parse contentType) as [typeInfo | e]; cbn [bindC];
    try reflexivity;
    destruct (mt_type typeInfo =? "application/graphql")%string; reflexivity.
Qed.

End EarlierParser.

Section Outcomes.
Context {P : Platform} {G : GraphQLEngine}.

(** ** parseQuery *)

(** The ways [parseQuery] returns, in the order of its tests. *)
Lemma parseQuery_returns (data : OptionsData) (params : GraphQLParams)
    (ctx : Context) (r0 : Response) (q : Result) (r : Response) :
  parseQuery data params ctx r0 = (Return q, r) ->
  exists text s,
    query params = Some text /\ text <> "" /\ schema data = Some s
    /\ ((validateSchema s <> []
         /\ q = errors_only (validateSchema s) /\ r = with_status 500 r0)
        \/ (validateSchema s = []
            /\ exists syntaxError,
                 parse text = inl syntaxError
                 /\ q = errors_only [syntaxError] /\ r = with_status 400 r0)
        \/ (validateSchema s = []
            /\ exists doc,
                 parse text = inr doc
                 /\ let validationErrors :=
                      validate s doc
                        (specifiedRules ++
                         match validationRules data with
                         | Some rules => rules
                         | None => []
                         end) in
                    (validationErrors <> []
                     /\ q = errors_only validationErrors /\ r = with_status 400 r0)
                    \/ (validationErrors = []
                        /\ ((exists result,
                               execute s doc (rootValue data) ctx (variables params)
                                 (operationName params) (fieldResolver data)
                                 = Return result
                               /\ q = mkQueryResult result (Some doc)
                               /\ r = with_status 200 r0)
                            \/ (exists contextError,
                                  execute s doc (rootValue data) ctx (variables params)
                                    (operationName params) (fieldResolver data)
                                    = Throw contextError
                                  /\ q = errors_only [contextError]
                                  /\ r = with_status 400 r0))))).
Proof.
  unfold parseQuery.
  destruct (query params) as [text |]; [| discriminate].
  destruct (String.eqb_spec text "") as [| Htext]; [discriminate |].
  destruct (schema data) as [s |]; [| discriminate].
  intros Hreturn. exists text, s. repeat split; try assumption.
  destruct (validateSchema s) as [| e0 es0] eqn:Hschema.
  - right. cbn [length Nat.ltb Nat.leb] in Hreturn.
    destruct (parse text) as [syntaxError | doc] eqn:Hparse.
    + left. split; [reflexivity |]. exists syntaxError.
      injection Hreturn as <- <-. auto.
    + right. split; [reflexivity |]. exists doc. split; [reflexivity |].
      cbv zeta.
      destruct (validate s doc _) as [| e1 es1] eqn:Hvalidate.
      * right. split; [reflexivity |].
        cbn [length Nat.ltb Nat.leb] in Hreturn.
        destruct (if (method ctx =? "GET")%string then _ else None);
          [discriminate |].
        destruct (execute _ _ _ _ _ _ _) as [result | contextError].
        -- left. exists result. injection Hreturn as <- <-. auto.
        -- right. exists contextError. injection Hreturn as <- <-. auto.
      * left. injection Hreturn as <- <-.
        split; [discriminate | auto].
  - left. injection Hreturn as <- <-. split; [discriminate | auto].
Qed.

(** What [parseQuery] returns is an execution result with its document and
    status 200, or errors alone: no data, no document, at least one error,
    status 400 or 500. It writes the status and nothing else. *)
Theorem parseQuery_returns_data_or_errors
    (data : OptionsData) (params : GraphQLParams) (ctx : Context)
    (r0 : Response) (q : Result) (r : Response) :
  parseQuery data params ctx r0 = (Return q, r) ->
  res_headers r = res_headers r0 /\ res_type r = res_type r0
  /\ res_body r = res_body r0
  /\ match document q with
     | Some doc =>
         res_status r = 200
         /\ exists text s,
              query params = Some text /\ schema data = Some s
              /\ parse text = inr doc
              /\ execute s doc (rootValue data) ctx (variables params)
                   (operationName params) (fieldResolver data) = Return (result q)
     | None =>
         (res_status r = 400 \/ res_status r = 500)
         /\ result_data (result q) = JSUndefined
         /\ result_extensions (result q) = JSUndefined
         /\ exists e es, result_errors (result q) = Some (e :: es)
     end.
Proof.
  intros Hreturn.
  destruct (parseQuery_returns data params ctx r0 q r Hreturn)
    as (text & s & Hquery & _ & Hschema & Hcases).
  assert (Herrors : forall errs status,
            errs <> [] -> (status = 400 \/ status = 500) ->
            q = errors_only errs -> r = with_status status r0 ->
            res_headers r = res_headers r0 /\ res_type r = res_type r0
            /\ res_body r = res_body r0
            /\ match document q with
               | Some doc =>
                   res_status r = 200
                   /\ exists text s,
                        query params = Some text /\ schema data = Some s
                        /\ parse text = inr doc
                        /\ execute s doc (rootValue data) ctx (variables params)
                             (operationName params) (fieldResolver data)
                           = Return (result q)
               | None =>
                   (res_status r = 400 \/ res_status r = 500)
                   /\ result_data (result q) = JSUndefined
                   /\ result_extensions (result q) = JSUndefined
                   /\ exists e es, result_errors (result q) = Some (e :: es)
               end).
  { intros errs status Hne Hstatus -> ->. cbn.
    repeat split; try reflexivity; try exact Hstatus.
    destruct errs as [| e es]; [contradiction | eauto]. }
  destruct Hcases as [(Hne & Hq & Hr) | [(_ & e & _ & Hq & Hr) | (_ & doc & Hparse & Hrest)]].
  - exact (Herrors _ 500 Hne (or_intror eq_refl) Hq Hr).
  - refine (Herrors [e] 400 _ (or_introl eq_refl) Hq Hr). discriminate.
  - cbv zeta in Hrest.
    destruct Hrest as [(Hne & Hq & Hr) | (_ & [(result & Hexecute & -> & ->) | (e & _ & Hq & Hr)])].
    + exact (Herrors _ 400 Hne (or_introl eq_refl) Hq Hr).
    + cbn. repeat split. exists text, s. auto.
    + refine (Herrors [e] 400 _ (or_introl eq_refl) Hq Hr). discriminate.
Qed.

(** [parseQuery] throws three errors and no other: the 400 of a missing
    query, the engine's complaint about a missing schema, and the 405 of a
    GET whose operation is not a query. It leaves the status alone, and adds
    the [Allow] header in the last case only. *)
Theorem parseQuery_throws_three_errors
    (data : OptionsData) (params : GraphQLParams) (ctx : Context)
    (r0 : Response) (error : JSError) (r : Response) :
  parseQuery data params ctx r0 = (Throw error, r) ->
  res_status r = res_status r0 /\ res_body r = res_body r0
  /\ (((query params = None \/ query params = Some "")
       /\ error = httpError 400 "Must provide query string." /\ r = r0)
      \/ (schema data = None
          /\ error = Error "Expected undefined to be a GraphQL schema." /\ r = r0)
      \/ (method ctx = "GET"
          /\ exists text s doc operation,
               query params = Some text /\ schema data = Some s
               /\ parse text = inr doc
               /\ getOperationAST doc (operationName params) = Some operation
               /\ operation <> OpQuery
               /\ error = httpError 405
                            ("Can only perform a " ++ operation_text operation
                             ++ " operation from a POST request.")
               /\ r = with_header "Allow" "POST" r0)).
Proof.
  unfold parseQuery.
  destruct (query params) as [text |].
  2: { intros H. injection H as <- <-. repeat split. left. auto. }
  destruct (String.eqb_spec text "") as [-> | Htext].
  { intros H. injection H as <- <-. repeat split. left. auto. }
  destruct (schema data) as [s |].
  2: { intros H. injection H as <- <-. repeat split. right. left. auto. }
  destruct (validateSchema s); [| discriminate].
  cbn [length Nat.ltb Nat.leb].
  destruct (parse text) as [syntaxError | doc] eqn:Hparse; [discriminate |].
  destruct (validate s doc _); [| discriminate].
  cbn [length Nat.ltb Nat.leb].
  destruct (String.eqb_spec (method ctx) "GET") as [Hget | _].
  - destruct (getOperationAST doc (operationName params)) as [operation |] eqn:Hop.
    + destruct operation.
      * destruct (execute _ _ _ _ _ _ _); discriminate.
      * intros H. injection H as <- <-. repeat split.
        right. right. split; [exact Hget |].
        exists text, s, doc, OpMutation. repeat split; auto; discriminate.
      * intros H. injection H as <- <-. repeat split.
        right. right. split; [exact Hget |].
        exists text, s, doc, OpSubscription. repeat split; auto; discriminate.
    + destruct (execute _ _ _ _ _ _ _); discriminate.
  - destruct (execute _ _ _ _ _ _ _); discriminate.
Qed.

End Outcomes.

Section Handler.
Context {P : Platform} {G : GraphQLEngine}.

(** ** The middleware *)

(** How the [try] block returns: the parameters resolved, the query
    returned, and the extensions function, if there is one, returned too;
    the data and the errors are those of the query. *)
Lemma graphqlHTTP_try_returns (data : OptionsData) (ctx : Context)
    (r0 : Response) (answer : ExecutionResult) (r1 : Response) :
  graphqlHTTP_try data ctx r0 = (Return answer, r1) ->
  exists params q,
    getGraphQLParams (req ctx) (body ctx) = Return params
    /\ parseQuery data params ctx r0 = (Return q, r1)
    /\ result_data answer = result_data (result q)
    /\ result_errors answer = result_errors (result q).
Proof.
  intros Htry.
  destruct (getGraphQLParams (req ctx) (body ctx)) as [params | e] eqn:Hparams.
  - rewrite (graphqlHTTP_try_spec data ctx r0 params Hparams) in Htry.
    destruct (parseQuery data params ctx r0) as [[q | e] r] eqn:Hquery;
      [| discriminate].
    exists params, q.
    destruct (extensionsFn data) as [hook |].
    + destruct (hook _) as [extensions | e]; [| discriminate].
      injection Htry as <- <-.
      destruct (truthy extensions && (typeof extensions =? "object")%string)%bool;
        auto.
    + injection Htry as <- <-. auto.
  - unfold graphqlHTTP_try, bindE, lift in Htry. rewrite Hparams in Htry.
    discriminate.
Qed.

(** Status 200 means that the engine executed the document and returned
    data: whenever the response that the middleware hands on has status
    200, the parameters resolved, the query parsed, [execute] returned a
    result whose data is truthy, and that data is in the body. *)
Theorem status_200_means_executed_with_data
    (options : Options) (ctx : Context) (next : Eff unit) (r0 : Response)
    (data : OptionsData) (s : GraphQLSchema) :
  method ctx = "GET" \/ method ctx = "POST" ->
  parseOptions options ctx r0 = (Return data, r0) ->
  schema data = Some s ->
  exists r,
    graphqlHTTP_middleware options ctx next r0 = next r
    /\ (res_status r = 200 ->
        exists params text doc executed payload,
          getGraphQLParams (req ctx) (body ctx) = Return params
          /\ query params = Some text
          /\ parse text = inr doc
          /\ execute s doc (rootValue data) ctx (variables params)
               (operationName params) (fieldResolver data) = Return executed
          /\ truthy (result_data executed) = true
          /\ res_body r = Some (if pretty data then PayloadStringified 2 payload
                                else PayloadObject payload)
          /\ f_data payload = result_data executed).
Proof.
  intros Hmethod Hoptions Hschema.
  destruct (graphqlHTTP_outcome_returns data ctx r0) as (answer & r1 & Houtcome).
  exists (snd (graphqlHTTP_respond data ctx answer r1)).
  split.
  { exact (graphqlHTTP_middleware_spec options ctx next r0 data s answer r1
             Hmethod Hoptions Hschema Houtcome). }
  rewrite graphqlHTTP_respond_spec. cbn [snd res_status res_body].
  intros Hstatus.
  assert (H200 : res_status r1 = 200 /\ truthy (result_data answer) = true).
  { destruct (res_status r1 =? 200) eqn:H; cbn [andb] in Hstatus.
    - apply Z.eqb_eq in H.
      destruct (truthy (result_data answer)); [auto | discriminate].
    - apply Z.eqb_neq in H. contradiction. }
  destruct H200 as [H200 Hdata].
  rewrite graphqlHTTP_outcome_spec in Houtcome.
  destruct (graphqlHTTP_try data ctx r0) as [[answer' | e] r1'] eqn:Htry.
  2: { injection Houtcome as <- <-. discriminate. }
  injection Houtcome as -> ->.
  destruct (graphqlHTTP_try_returns data ctx r0 answer r1 Htry)
    as (params & q & Hparams & Hquery & Hsame & _).
  destruct (parseQuery_returns data params ctx r0 q r1 Hquery)
    as (text & s' & Htext & _ & Hs' & Hcases).
  rewrite Hschema in Hs'. injection Hs' as <-.
  destruct Hcases
    as [(_ & _ & Hr) | [(_ & e & _ & _ & Hr) | (_ & doc & Hparse & Hrest)]];
    try (rewrite Hr in H200; discriminate).
  cbv zeta in Hrest.
  destruct Hrest
    as [(_ & _ & Hr) | (_ & [(executed & Hexecute & Hq & _) | (e & _ & _ & Hr)])];
    try (rewrite Hr in H200; discriminate).
  exists params, text, doc, executed, (format_result data ctx answer).
  rewrite Hq in Hsame. cbn [result] in Hsame.
  rewrite <- Hsame. auto 10.
Qed.

(** The setup fails by throwing, and nothing is answered: a method that is
    neither GET nor POST is a 405 error with the header [Allow: GET, POST],
    thrown before the options are resolved; an error of the options, options
    that are no object, and options without a schema are thrown as they are,
    before the request is read, and [next] does not run. *)
Theorem middleware_setup_errors_are_thrown
    (options : Options) (ctx : Context) (next : Eff unit) (r0 : Response) :
  (method ctx <> "GET" -> method ctx <> "POST" ->
   graphqlHTTP_middleware options ctx next r0 =
     (Throw (httpError 405 "GraphQL only supports GET and POST requests."),
      with_header "Allow" "GET, POST" r0))
  /\
  (method ctx = "GET" \/ method ctx = "POST" ->
   (forall error r,
      parseOptions options ctx r0 = (Throw error, r) ->
      graphqlHTTP_middleware options ctx next r0 = (Throw error, r))
   /\ (options = OptionsValue (Return None) ->
       graphqlHTTP_middleware options ctx next r0 =
         (Throw (Error ("GraphQL middleware option function must return an options object "
                        ++ "or a promise which will be resolved to an options object.")),
          r0))
   /\ (forall data r,
         parseOptions options ctx r0 = (Return data, r) ->
         schema data = None ->
         graphqlHTTP_middleware options ctx next r0 =
           (Throw (Error "GraphQL middleware options must contain a schema."), r))).
Proof.
  split.
  - intros Hget Hpost. unfold graphqlHTTP_middleware.
    apply String.eqb_neq in Hget, Hpost. rewrite Hget, Hpost. reflexivity.
  - intros Hmethod.
    assert (Htest : (negb (method ctx =? "GET")%string
                     && negb (method ctx =? "POST")%string)%bool = false).
    { destruct Hmethod as [-> | ->]; reflexivity. }
    unfold graphqlHTTP_middleware. rewrite Htest.
    split; [| split].
    + intros error r Hoptions. unfold bindE at 1. rewrite Hoptions. reflexivity.
    + intros ->. reflexivity.
    + intros data r Hoptions Hschema. unfold bindE at 1.
      rewrite Hoptions, Hschema. reflexivity.
Qed.

(** The response to an error that the [try] block threw. *)
Lemma graphqlHTTP_caught (options : Options) (ctx : Context) (next : Eff unit)
    (r0 : Response) (data : OptionsData) (s : GraphQLSchema)
    (error : JSError) (r1 : Response) :
  method ctx = "GET" \/ method ctx = "POST" ->
  parseOptions options ctx r0 = (Return data, r0) ->
  schema data = Some s ->
  graphqlHTTP_try data ctx r0 = (Throw error, r1) ->
  graphqlHTTP_middleware options ctx next r0 =
    next (mkResponse
            (if status_or_500 error =? 200 then 500 else status_or_500 error)
            (res_headers r1)
            (Some "application/json")
            (Some (let errs := format_result data ctx
                                 (mkResult (Some [error]) JSUndefined JSUndefined) in
                   if pretty data then PayloadStringified 2 errs
                   else PayloadObject errs))).
Proof.
  intros Hmethod Hoptions Hschema Htry.
  rewrite (graphqlHTTP_middleware_spec options ctx next r0 data s
             (mkResult (Some [error]) JSUndefined JSUndefined)
             (with_status (status_or_500 error) r1) Hmethod Hoptions Hschema)
    by (rewrite graphqlHTTP_outcome_spec, Htry; reflexivity).
  rewrite graphqlHTTP_respond_spec.
  cbn [snd result_data truthy negb res_status res_headers with_status].
  rewrite andb_true_r. reflexivity.
Qed.

(** Parameters that cannot be read are answered with the error's status,
    and with 500 when the error has none (or has 200); the engine is not
    consulted and the headers stay as they were. *)
Theorem unreadable_parameters_are_answered
    (options : Options) (ctx : Context) (next : Eff unit) (r0 : Response)
    (data : OptionsData) (s : GraphQLSchema) (error : JSError) :
  method ctx = "GET" \/ method ctx = "POST" ->
  parseOptions options ctx r0 = (Return data, r0) ->
  schema data = Some s ->
  getGraphQLParams (req ctx) (body ctx) = Throw error ->
  exists r,
    graphqlHTTP_middleware options ctx next r0 = next r
    /\ res_status r = (if status_or_500 error =? 200 then 500
                       else status_or_500 error)
    /\ (err_status error = None -> res_status r = 500)
    /\ res_headers r = res_headers r0
    /\ res_body r =
         Some (let errs := format_result data ctx
                             (mkResult (Some [error]) JSUndefined JSUndefined) in
               if pretty data then PayloadStringified 2 errs
               else PayloadObject errs).
Proof.
  intros Hmethod Hoptions Hschema Hparams.
  assert (Htry : graphqlHTTP_try data ctx r0 = (Throw error, r0)).
  { unfold graphqlHTTP_try, bindE, lift. rewrite Hparams. reflexivity. }
  eexists. split.
  - exact (graphqlHTTP_caught options ctx next r0 data s error r0
             Hmethod Hoptions Hschema Htry).
  - cbn [res_status res_headers res_body]. repeat split.
    intros Hnone. unfold status_or_500. rewrite Hnone. reflexivity.
Qed.

(** The extensions function is asked about every result that [parseQuery]
    returns, the results with errors alone and no document included. When
    it returns a truthy object, that object is the extensions of the body. *)
Theorem returned_extensions_are_attached
    (options : Options) (ctx : Context) (next : Eff unit) (r0 : Response)
    (data : OptionsData) (s : GraphQLSchema) (params : GraphQLParams)
    (q : Result) (r1 : Response)
    (hook : RequestInfo -> Completion JSValue) (extensions : JSValue) :
  method ctx = "GET" \/ method ctx = "POST" ->
  parseOptions options ctx r0 = (Return data, r0) ->
  schema data = Some s ->
  getGraphQLParams (req ctx) (body ctx) = Return params ->
  parseQuery data params ctx r0 = (Return q, r1) ->
  extensionsFn data = Some hook ->
  hook (mkRequestInfo (document q) (variables params) (operationName params)
          (result q) ctx) = Return extensions ->
  truthy extensions = true ->
  typeof extensions = "object" ->
  exists r payload,
    graphqlHTTP_middleware options ctx next r0 = next r
    /\ res_body r = Some (if pretty data then PayloadStringified 2 payload
                          else PayloadObject payload)
    /\ f_extensions payload = extensions.
Proof.
  intros Hmethod Hoptions Hschema Hparams Hquery Hhook Hreturn Htruthy Hobject.
  pose proof (graphqlHTTP_try_spec data ctx r0 params Hparams) as Htry.
  rewrite Hquery, Hhook, Hreturn, Htruthy, Hobject in Htry.
  eexists. eexists. split.
  - eapply (graphqlHTTP_middleware_spec options ctx next r0 data s);
      [exact Hmethod | exact Hoptions | exact Hschema |].
    rewrite graphqlHTTP_outcome_spec, Htry. reflexivity.
  - rewrite graphqlHTTP_respond_spec. cbn [snd res_body]. split; reflexivity.
Qed.

(** An extensions function that throws replaces the result by its error:
    the data of a successful execution is dropped, and the status is the
    error's, or 500. *)
Theorem failing_extensions_replace_the_result
    (options : Options) (ctx : Context) (next : Eff unit) (r0 : Response)
    (data : OptionsData) (s : GraphQLSchema) (params : GraphQLParams)
    (q : Result) (r1 : Response)
    (hook : RequestInfo -> Completion JSValue) (error : JSError) :
  method ctx = "GET" \/ method ctx = "POST" ->
  parseOptions options ctx r0 = (Return data, r0) ->
  schema data = Some s ->
  getGraphQLParams (req ctx) (body ctx) = Return params ->
  parseQuery data params ctx r0 = (Return q, r1) ->
  extensionsFn data = Some hook ->
  hook (mkRequestInfo (document q) (variables params) (operationName params)
          (result q) ctx) = Throw error ->
  exists r,
    graphqlHTTP_middleware options ctx next r0 = next r
    /\ res_status r = (if status_or_500 error =? 200 then 500
                       else status_or_500 error)
    /\ res_status r <> 200
    /\ res_body r =
         Some (let errs := format_result data ctx
                             (mkResult (Some [error]) JSUndefined JSUndefined) in
               if pretty data then PayloadStringified 2 errs
               else PayloadObject errs).
Proof.
  intros Hmethod Hoptions Hschema Hparams Hquery Hhook Hthrow.
  pose proof (graphqlHTTP_try_spec data ctx r0 params Hparams) as Htry.
  rewrite Hquery, Hhook, Hthrow in Htry.
  eexists. split.
  - exact (graphqlHTTP_caught options ctx next r0 data s error r1
             Hmethod Hoptions Hschema Htry).
  - cbn [res_status res_body]. repeat split.
    destruct (status_or_500 error =? 200) eqn:H; [discriminate |].
    apply Z.eqb_neq. exact H.
Qed.

End Handler.

(** * More of the code, on examples *)

Section MoreExamples.
Import Example Samples.

Lemma readBody_unsupported_content_encoding_witness :
  readBody brotli (mkMediaType "application/json" [])
    = Throw (httpError 415 ("Unsupported content-encoding " ++ quoted "br" ++ ".")).
Proof.
  refine (readBody_unsupported_content_encoding brotli
            (mkMediaType "application/json" []) "br" eq_refl eq_refl _ _ _);
    discriminate.
Defined.

Lemma readBody_ignores_length_when_encoded_witness :
  readBody gzip_short (mkMediaType "application/json" [])
    = readBody gzip_long (mkMediaType "application/json" []).
Proof.
  refine (readBody_ignores_length_when_encoded gzip_short gzip_long
            (mkMediaType "application/json" []) "GZIP" eq_refl eq_refl eq_refl _).
  discriminate.
Defined.

Lemma readBody_errors_have_a_status_witness :
  exists status,
    err_status (mkError (Some 415) ("Unsupported charset " ++ quoted "UTF-16" ++ "."))
      = Some status
    /\ status <> 0.
Proof.
  exact (readBody_errors_have_a_status json_hello utf16 _ eq_refl).
Defined.

Lemma parseBody_decodes_before_dispatch_witness :
  parseBody plain_latin1 JSUndefined
    = Throw (httpError 415 ("Unsupported charset " ++ quoted "LATIN1" ++ "."))
  /\ parseBody plain_utf8 JSUndefined = Return (JSObject []).
Proof.
  split.
  - exact (proj1 (parseBody_decodes_before_dispatch plain_latin1
                    "text/plain; charset=latin1"
                    (mkMediaType "text/plain" [("charset", "latin1")])
                    eq_refl eq_refl) eq_refl).
  - refine (proj2 (parseBody_decodes_before_dispatch plain_utf8 "text/plain"
                     (mkMediaType "text/plain" []) eq_refl eq_refl)
                  "hello" eq_refl _ _ _); discriminate.
Defined.

Lemma getGraphQLParams_parsed_object_ignores_request_witness :
  getGraphQLParams plain_latin1 hello_only
    = getGraphQLParams (req get_hello) hello_only.
Proof.
  exact (getGraphQLParams_parsed_object_ignores_request plain_latin1 (req get_hello)
           hello_only eq_refl eq_refl eq_refl).
Defined.

Lemma getGraphQLParams_without_content_type_witness :
  getGraphQLParams no_headers (JSString "{ hello }")
    = Return (mkParams None JSNull None false).
Proof.
  refine (proj2 (getGraphQLParams_without_content_type no_headers
                   (JSString "{ hello }") eq_refl (or_introl _)) eq_refl).
  discriminate.
Defined.

Lemma getGraphQLParams_graphql_body_witness :
  query (mkParams (Some "{ hello }") JSNull (Some "Q") false) = Some "{ hello }"
  /\ operationName (mkParams (Some "{ hello }") JSNull (Some "Q") false) = Some "Q".
Proof.
  destruct (proj2 (getGraphQLParams_graphql_body graphql_hello "application/graphql"
                     (mkMediaType "application/graphql" []) "{ hello }"
                     eq_refl eq_refl eq_refl eq_refl)
              (mkParams (Some "{ hello }") JSNull (Some "Q") false) eq_refl)
    as (Hquery & Hname & _).
  exact (conj Hquery Hname).
Defined.

Lemma getGraphQLParams_failures_witness :
  parseBody plain_latin1 JSUndefined
    = Throw (httpError 415 ("Unsupported charset " ++ quoted "LATIN1" ++ "."))
  \/ (httpError 415 ("Unsupported charset " ++ quoted "LATIN1" ++ ".")
        = httpError 400 "Variables are invalid JSON."
      /\ exists bodyData text,
           parseBody plain_latin1 JSUndefined = Return bodyData
           /\ nullish (js_of_option
                         (URLSearchParams.get (urlData plain_latin1) "variables"))
                      (js_get bodyData "variables") = JSString text
           /\ JSON.parse text = None).
Proof.
  exact (getGraphQLParams_failures plain_latin1 JSUndefined _ eq_refl).
Defined.

Lemma getGraphQLParams_reads_four_keys_witness :
  getGraphQLParams no_headers hello_and_more = getGraphQLParams no_headers hello_only.
Proof.
  refine (getGraphQLParams_reads_four_keys no_headers no_headers
            hello_and_more hello_only hello_and_more hello_only
            eq_refl eq_refl eq_refl eq_refl eq_refl eq_refl _).
  split; reflexivity.
Defined.

Lemma parseBody_json_is_object_witness :
  exists fields, JSObject [("query", JSString "{ hello }")] = JSObject fields.
Proof.
  refine (parseBody_json_is_object json_hello JSUndefined "application/json"
            (mkMediaType "application/json" []) (text "{'query':'{ hello }'}")
            _ _ eq_refl eq_refl eq_refl eq_refl eq_refl eq_refl).
  discriminate.
Defined.

Lemma variables_not_text_object_or_null_witness :
  typeof (variables (mkParams None JSNull None false)) = "object".
Proof.
  refine (variables_not_text_object_or_null no_headers
            (JSObject [("variables", JSNumber "3")])
            (JSObject [("variables", JSNumber "3")])
            (mkParams None JSNull None false) eq_refl _ eq_refl).
  discriminate.
Defined.

Lemma urlData_between_question_marks_witness :
  urlData (request "/graphql?query=a?operationName=b" [] "") = [("query", "a")].
Proof.
  refine (proj1 (proj2 (urlData_between_question_marks "/graphql" "query=a"
                          "operationName=b" [] "" _ _)));
    cbn; intuition discriminate.
Defined.

Lemma parseQuery_returns_data_or_errors_witness :
  (res_status (with_status 500 fresh) = 400 \/ res_status (with_status 500 fresh) = 500)
  /\ result_data (result (errors_only [Error "Query root type must be provided."]))
     = JSUndefined.
Proof.
  destruct (parseQuery_returns_data_or_errors (options_for BrokenSchema)
              (mkParams (Some "{ hello }") JSNull None false) get_hello fresh
              (errors_only [Error "Query root type must be provided."])
              (with_status 500 fresh) eq_refl)
    as (_ & _ & _ & Hstatus & Hdata & _).
  exact (conj Hstatus Hdata).
Defined.

Lemma parseQuery_throws_three_errors_witness :
  res_status (with_header "Allow" "POST" fresh) = res_status fresh.
Proof.
  exact (proj1 (parseQuery_throws_three_errors (options_for GoodSchema)
                  (mkParams (Some "mutation Inc { inc }") JSNull (Some "Inc") false)
                  get_mutation fresh
                  (httpError 405
                     "Can only perform a mutation operation from a POST request.")
                  (with_header "Allow" "POST" fresh) eq_refl)).
Defined.

Lemma status_200_means_executed_with_data_witness :
  exists r, graphqlHTTP_middleware (options_value GoodSchema) get_hello (ret tt) fresh
              = (Return tt, r).
Proof.
  destruct (status_200_means_executed_with_data (options_value GoodSchema) get_hello
              (ret tt) fresh (options_for GoodSchema) GoodSchema
              (or_introl eq_refl) eq_refl eq_refl) as (r & Hrun & _).
  exists r. exact Hrun.
Defined.

Lemma middleware_setup_errors_are_thrown_witness :
  graphqlHTTP_middleware (options_value GoodSchema) put (ret tt) fresh
    = (Throw (httpError 405 "GraphQL only supports GET and POST requests."),
       with_header "Allow" "GET, POST" fresh)
  /\ graphqlHTTP_middleware (OptionsValue (Return None)) get_hello (ret tt) fresh
     = (Throw (Error ("GraphQL middleware option function must return an options object "
                      ++ "or a promise which will be resolved to an options object.")),
        fresh)
  /\ graphqlHTTP_middleware
       (OptionsValue (Return (Some (mkOptionsData None None false None None None None))))
       get_hello (ret tt) fresh
     = (Throw (Error "GraphQL middleware options must contain a schema."), fresh).
Proof.
  split; [| split].
  - refine (proj1 (middleware_setup_errors_are_thrown (options_value GoodSchema) put
                     (ret tt) fresh) _ _); discriminate.
  - exact (proj1 (proj2 (proj2 (middleware_setup_errors_are_thrown
                                  (OptionsValue (Return None)) get_hello (ret tt) fresh)
                           (or_introl eq_refl)))
             eq_refl).
  - exact (proj2 (proj2 (proj2 (middleware_setup_errors_are_thrown
                                  (OptionsValue
                                     (Return (Some (mkOptionsData None None false None
                                                      None None None))))
                                  get_hello (ret tt) fresh)
                           (or_introl eq_refl)))
             _ _ eq_refl eq_refl).
Defined.

Lemma unreadable_parameters_are_answered_witness :
  exists r, graphqlHTTP_middleware (options_value GoodSchema) post_cut (ret tt) fresh
              = (Return tt, r)
            /\ res_status r = 400.
Proof.
  destruct (unreadable_parameters_are_answered (options_value GoodSchema) post_cut
              (ret tt) fresh (options_for GoodSchema) GoodSchema
              (httpError 400 "POST body sent invalid JSON.")
              (or_intror eq_refl) eq_refl eq_refl eq_refl)
    as (r & Hrun & Hstatus & _).
  exists r. exact (conj Hrun Hstatus).
Defined.

Lemma returned_extensions_are_attached_witness :
  exists r payload,
    graphqlHTTP_middleware (OptionsValue (Return (Some (options_with BrokenSchema stamp))))
      get_hello (ret tt) fresh = (Return tt, r)
    /\ res_body r = Some (PayloadObject payload)
    /\ f_extensions payload = JSObject [("took", JSNumber "1")].
Proof.
  exact (returned_extensions_are_attached
           (OptionsValue (Return (Some (options_with BrokenSchema stamp))))
           get_hello (ret tt) fresh (options_with BrokenSchema stamp) BrokenSchema
           (mkParams (Some "{ hello }") JSNull None false)
           (errors_only [Error "Query root type must be provided."])
           (with_status 500 fresh) stamp (JSObject [("took", JSNumber "1")])
           (or_introl eq_refl) eq_refl eq_refl eq_refl eq_refl eq_refl eq_refl
           eq_refl eq_refl).
Defined.

Lemma failing_extensions_replace_the_result_witness :
  exists r,
    graphqlHTTP_middleware (OptionsValue (Return (Some (options_with GoodSchema failing))))
      get_hello (ret tt) fresh = (Return tt, r)
    /\ res_status r = 500.
Proof.
  destruct (failing_extensions_replace_the_result (P := platform) (G := engine)
              (OptionsValue (Return (Some (options_with GoodSchema failing))))
              get_hello (ret tt) fresh (options_with GoodSchema failing) GoodSchema
              (mkParams (Some "{ hello }") JSNull None false)
              (mkQueryResult (G := engine)
                 (mkResult None (JSObject [("hello", JSString "world")]) JSUndefined)
                 (Some [mkOperation None OpQuery "hello"]))
              (with_status 200 fresh) failing (Error "no extensions")
              (or_introl eq_refl) eq_refl eq_refl eq_refl eq_refl eq_refl eq_refl)
    as (r & Hrun & Hstatus & _).
  exists r. exact (conj Hrun Hstatus).
Defined.

End MoreExamples.
